(** * The portfolio front-end: wave background, scroll blur, language toggle
    and project list, embedded in Rocq.

    The TypeScript sources compute on the JavaScript [number] type.  Every
    function below is transcribed once, against the arithmetic interface
    [Number], and read at two instances:

    - [binary64]: IEEE 754 double precision (Rocq's primitive floats), which
      is what the browser runs.  [Math.exp], [Math.sin] and the conversion of
      a number to a string are left to the engine by ECMAScript
      (implementation-approximated, resp. a long printing algorithm), so
      they are components of a [Runtime] record;
    - [exact]: the real numbers, i.e. the same code with no rounding. *)

From Stdlib Require Import Bool ZArith QArith List String Ascii Lia DecimalString.
From Stdlib Require Import Floats.
From Stdlib Require Import Reals Qreals Lra.
From Stdlib Require FMapList OrderedTypeEx.
Import ListNotations.

Set Warnings "-inexact-float".

(* ------------------------------------------------------------------ *)
(** ** The [number] interface *)

Class Number (N : Type) : Type := {
  lit : Q -> N;                     (* a numeric literal of the source *)
  nadd : N -> N -> N;
  nsub : N -> N -> N;
  nmul : N -> N -> N;
  ndiv : N -> N -> N;
  nneg : N -> N;                    (* unary minus *)
  nle : N -> N -> bool;             (* a <= b *)
  ngt : N -> N -> bool;             (* a > b *)
  nge : N -> N -> bool;             (* a >= b *)
  Math_abs : N -> N;
  Math_min : N -> N -> N;
  Math_max : N -> N -> N;
  Math_exp : N -> N;
  Math_sin : N -> N;
  Math_PI : N;
  toString : N -> string            (* `${n}` in a template literal *)
}.

Arguments lit {N _} q%_Q.

Declare Scope num_scope.
Delimit Scope num_scope with num.
Notation "a + b" := (nadd a b) : num_scope.
Notation "a - b" := (nsub a b) : num_scope.
Notation "a * b" := (nmul a b) : num_scope.
Notation "a / b" := (ndiv a b) : num_scope.
Notation "- a" := (nneg a) : num_scope.
Notation "a <=? b" := (nle a b) : num_scope.
Notation "a >? b" := (ngt a b) : num_scope.
Notation "a >=? b" := (nge a b) : num_scope.

(** The loop counter of a [for] loop, as a number. *)
Definition ofNat {N} `{Number N} (i : nat) : N := lit (inject_Z (Z.of_nat i)).

(* ------------------------------------------------------------------ *)
(** ** IEEE 754 binary64 *)

Module F64.

(** A literal [p/q] of the source denotes the double nearest to it; both
    [p] and [q] are small integers, exactly representable, and the
    division is correctly rounded. *)
Definition of_Z (z : Z) : float :=
  match z with
  | Z0 => 0%float
  | Zpos _ => of_uint63 (Uint63.of_Z z)
  | Zneg p => (- of_uint63 (Uint63.of_Z (Zpos p)))%float
  end.

Definition of_Q (q : Q) : float := (of_Z (Qnum q) / of_Z (Zpos (Qden q)))%float.

(** [Math.min] and [Math.max] of ECMAScript: NaN if an argument is NaN,
    and -0 is below +0. *)
Definition min (a b : float) : float :=
  if is_nan a || is_nan b then nan
  else if (a <? b)%float then a
  else if (b <? a)%float then b
  else if get_sign a then a else b.

Definition max (a b : float) : float :=
  if is_nan a || is_nan b then nan
  else if (a <? b)%float then b
  else if (b <? a)%float then a
  else if get_sign a then b else a.

(** What ECMAScript leaves to the engine. *)
Record Runtime : Type := {
  exp : float -> float;
  sin : float -> float;
  number_toString : float -> string
}.

Definition PI : float := 3.141592653589793%float.

End F64.

#[global] Instance binary64 (rt : F64.Runtime) : Number float := {|
  lit := F64.of_Q;
  nadd := PrimFloat.add;
  nsub := PrimFloat.sub;
  nmul := PrimFloat.mul;
  ndiv := PrimFloat.div;
  nneg := PrimFloat.opp;
  nle := PrimFloat.leb;
  ngt := fun a b => PrimFloat.ltb b a;
  nge := fun a b => PrimFloat.leb b a;
  Math_abs := PrimFloat.abs;
  Math_min := F64.min;
  Math_max := F64.max;
  Math_exp := F64.exp rt;
  Math_sin := F64.sin rt;
  Math_PI := F64.PI;
  toString := F64.number_toString rt
|}.

(* ------------------------------------------------------------------ *)
(** ** Exact arithmetic

    The same operations on the real numbers, for the statements that the
    text makes "in exact arithmetic".  Division on [R] is total
    ([x / 0 = 0]), where the code yields NaN or an infinity: every
    statement over this instance carries the hypotheses that keep each
    divisor of the code it runs away from zero. *)

Module Exact.

Definition le (a b : R) : bool := if Rle_dec a b then true else false.
Definition gt (a b : R) : bool := if Rgt_dec a b then true else false.
Definition ge (a b : R) : bool := if Rge_dec a b then true else false.

End Exact.

#[global] Instance exact (str : R -> string) : Number R := {|
  lit := Q2R;
  nadd := Rplus;
  nsub := Rminus;
  nmul := Rmult;
  ndiv := Rdiv;
  nneg := Ropp;
  nle := Exact.le;
  ngt := Exact.gt;
  nge := Exact.ge;
  Math_abs := Rabs;
  Math_min := Rmin;
  Math_max := Rmax;
  Math_exp := Rtrigo_def.exp;
  Math_sin := Rtrigo_def.sin;
  Math_PI := PI;
  toString := str
|}.

(* ------------------------------------------------------------------ *)
(** ** src/components/WaveBackground.tsx, first component *)

Module WaveBackground.

Section Component.
Context {N : Type} `{Number N}.
Local Open Scope num_scope.

(** [WaveBackgroundProps], after the defaults are filled in. *)
Record Props : Type := {
  maxAmplitude : N;
  baseAmplitude : N;
  waveSpeed : N;
  waveFrequency : N;
  mouseInfluenceRadius : N;
  waveOffset : N;
  mouseLerpSpeed : N;
  gradientLerpSpeed : N;
  gradientRangeStart : N;
  gradientRangeEnd : N
}.

(** The four [useRef] cells of the mouse tracking ([.current]). *)
Record Refs : Type := {
  targetMouseX : option N;      (* number | null *)
  smoothMouseX : N;
  smoothGradientX : N;
  mouseInfluence : N
}.

Variable p : Props.

Definition getAmplitudeAtX (r : Refs) (x : N) : N :=
  if mouseInfluence r <=? lit 0.01 then baseAmplitude p
  else
    let distance := Math_abs (x - smoothMouseX r) in
    let normalizedDistance := Math_min (distance / mouseInfluenceRadius p) (lit 1) in
    let influence := Math_exp (- normalizedDistance * normalizedDistance * lit 3) in
    let targetAmplitude :=
      baseAmplitude p + (maxAmplitude p - baseAmplitude p) * influence in
    baseAmplitude p + (targetAmplitude - baseAmplitude p) * mouseInfluence r.

(** The loop counter bound [segments = 100]. *)
Definition segments : nat := 100.

(** One iteration of the [for] loop: [path += ` L ${x} ${waveY}`]. *)
Definition waveStep (r : Refs) (time width height segmentWidth : N)
    (path : string) (i : nat) : string :=
  let x := ofNat i * segmentWidth in
  let amplitude := getAmplitudeAtX r x in
  let basePhase := (x / width) * Math_PI * lit 2 * waveFrequency p in
  let timeOffset := time * waveSpeed p in
  let primaryWave := Math_sin (basePhase + timeOffset) in
  let secondaryWave :=
    Math_sin (basePhase * lit 1.5 + timeOffset * lit 0.7) * lit 0.3 in
  let waveY :=
    height - waveOffset p
    - amplitude * (lit 1 + primaryWave + secondaryWave) * lit 0.5 in
  (path ++ " L " ++ toString x ++ " " ++ toString waveY)%string.

(** [for (let i = 0; i <= segments; i++)] runs the body at
    [i = 0, 1, ..., segments]. *)
Definition generateWavePath (r : Refs) (time width height : N) : string :=
  let segmentWidth := width / ofNat segments in
  let path := ("M 0 " ++ toString (height + lit 10))%string in
  let path :=
    fold_left (waveStep r time width height segmentWidth)
              (seq 0 (S segments)) path in
  (path ++ " L " ++ toString width ++ " " ++ toString (height + lit 10)
        ++ " Z")%string.

(** The DOM nodes behind [pathRef] and [gradientRef]; a ref whose
    [.current] is [null] is [None]. *)
Record SVGPathElement : Type := { attr_d : option string }.
Record HTMLDivElement : Type := { style_background : string }.
Record Dom : Type := {
  pathRef : option SVGPathElement;
  gradientRef : option HTMLDivElement
}.

(** The [dimensions] state captured by the animation effect. *)
Record Dimensions : Type := { width : N; height : N }.

Definition influenceFadeSpeed : N := lit 0.05.

(** The first half of [animate]: the four refs after the frame. *)
Definition animateRefs (dimensions : Dimensions) (r : Refs) : Refs :=
  let lerpSpeed := mouseLerpSpeed p in
  match targetMouseX r with
  | Some target =>
      let mouseInfluence' :=
        mouseInfluence r + (lit 1 - mouseInfluence r) * influenceFadeSpeed in
      let smoothMouseX' :=
        smoothMouseX r + (target - smoothMouseX r) * lerpSpeed in
      let rangeWidth :=
        width dimensions * (gradientRangeEnd p - gradientRangeStart p) in
      let startOffset := width dimensions * gradientRangeStart p in
      let gradientTargetX :=
        (target / width dimensions) * rangeWidth + startOffset in
      let smoothGradientX' :=
        smoothGradientX r
        + (gradientTargetX - smoothGradientX r) * gradientLerpSpeed p in
      {| targetMouseX := targetMouseX r;
         smoothMouseX := smoothMouseX';
         smoothGradientX := smoothGradientX';
         mouseInfluence := mouseInfluence' |}
  | None =>
      let mouseInfluence' :=
        mouseInfluence r + (lit 0 - mouseInfluence r) * influenceFadeSpeed in
      let rangeCenter :=
        width dimensions
        * (gradientRangeStart p
           + (gradientRangeEnd p - gradientRangeStart p) / lit 2) in
      let centerTarget := rangeCenter in
      let smoothGradientX' :=
        smoothGradientX r
        + (centerTarget - smoothGradientX r) * gradientLerpSpeed p in
      {| targetMouseX := targetMouseX r;
         smoothMouseX := smoothMouseX r;
         smoothGradientX := smoothGradientX';
         mouseInfluence := mouseInfluence' |}
  end.

Definition gradientBackground (x : N) : string :=
  ("radial-gradient(circle at " ++ toString x
     ++ "px 100%, rgb(var(--bg-vfx1)), rgb(var(--bg-vfx2)))")%string.

(** The second half of [animate]: the path and the gradient are
    repainted from the refs just updated. *)
Definition animateDom (dimensions : Dimensions) (r : Refs) (time : N)
    (dom : Dom) : Dom :=
  let pathRef' :=
    match pathRef dom with
    | Some el =>
        if width dimensions >? lit 0
        then Some {| attr_d :=
                       Some (generateWavePath r time (width dimensions)
                                              (height dimensions)) |}
        else Some el
    | None => None
    end in
  let gradientRef' :=
    match gradientRef dom with
    | Some _ =>
        Some {| style_background := gradientBackground (smoothGradientX r) |}
    | None => None
    end in
  {| pathRef := pathRef'; gradientRef := gradientRef' |}.

(** One animation frame.  (The frame ends by scheduling the next one
    with [requestAnimationFrame]; see [frames].) *)
Definition animate (dimensions : Dimensions) (time : N)
    (s : Refs * Dom) : Refs * Dom :=
  let r' := animateRefs dimensions (fst s) in
  (r', animateDom dimensions r' time (snd s)).

Definition setTarget (target : option N) (r : Refs) : Refs :=
  {| targetMouseX := target;
     smoothMouseX := smoothMouseX r;
     smoothGradientX := smoothGradientX r;
     mouseInfluence := mouseInfluence r |}.

(** The frames of a run under one [dimensions]: before each frame the
    mouse listener has left [target] in the ref, and the frame runs at
    time [time]. *)
Fixpoint frames (dimensions : Dimensions) (inputs : list (option N * N))
    (s : Refs * Dom) : Refs * Dom :=
  match inputs with
  | [] => s
  | (target, time) :: rest =>
      frames dimensions rest
             (animate dimensions time (setTarget target (fst s), snd s))
  end.

(** The mouse listener, run on a mousemove event between two frames;
    [containerRef] holds the bounding rectangle of the container when it
    is mounted. *)
Record MouseEvent : Type := { clientX : N; clientY : N }.
Record DOMRect : Type := {
  rect_left : N; rect_right : N; rect_top : N; rect_bottom : N
}.

Definition handleMouseMove (containerRef : option DOMRect) (e : MouseEvent)
    (r : Refs) : Refs :=
  match containerRef with
  | Some rect =>
      let target :=
        if (clientX e >=? rect_left rect) && (clientX e <=? rect_right rect)
           && (clientY e >=? rect_top rect) && (clientY e <=? rect_bottom rect)
        then Some (clientX e - rect_left rect)
        else None in
      setTarget target r
  | None => r
  end.

(** The refs as [useRef] creates them. *)
Definition initialRefs : Refs :=
  {| targetMouseX := None; smoothMouseX := lit 0;
     smoothGradientX := lit 0; mouseInfluence := lit 0 |}.

(** The resize effect at mount: with the container mounted
    ([offsetWidth] given) the smoothed positions start at the centre. *)
Definition initPositions (offsetWidth : option N) (r : Refs) : Refs :=
  match offsetWidth with
  | Some w =>
      let center := w / lit 2 in
      let rangeCenter :=
        w * (gradientRangeStart p
             + (gradientRangeEnd p - gradientRangeStart p) / lit 2) in
      {| targetMouseX := targetMouseX r;
         smoothMouseX := center;
         smoothGradientX := rangeCenter;
         mouseInfluence := mouseInfluence r |}
  | None => r
  end.

(** What the browser delivers to a mounted component: a [mousemove] on
    the window, or the animation frame requested by the previous one. *)
Inductive Event : Type :=
| MouseMove (e : MouseEvent)
| AnimationFrame (time : N).

(** The handler each event runs, under the layout ([containerRef] with
    its bounding rectangle, and the [dimensions] state) of the moment. *)
Definition dispatch (containerRef : option DOMRect) (dimensions : Dimensions)
    (ev : Event) (s : Refs * Dom) : Refs * Dom :=
  match ev with
  | MouseMove e => (handleMouseMove containerRef e (fst s), snd s)
  | AnimationFrame time => animate dimensions time s
  end.

Definition run (containerRef : option DOMRect) (dimensions : Dimensions)
    (events : list Event) (s : Refs * Dom) : Refs * Dom :=
  fold_left (fun s ev => dispatch containerRef dimensions ev s) events s.

(** The refs once the mount effects have run on a container
    [offsetWidth] wide. *)
Definition mountedRefs (offsetWidth : N) : Refs :=
  initPositions (Some offsetWidth) initialRefs.

End Component.

Arguments Props : clear implicits.
Arguments Refs : clear implicits.
Arguments Dimensions : clear implicits.
Arguments MouseEvent : clear implicits.
Arguments DOMRect : clear implicits.
Arguments Event : clear implicits.

End WaveBackground.

(* ------------------------------------------------------------------ *)
(** ** src/components/WaveBackground.tsx, second component

    The file holds a second [WaveBackground], without the gradient props
    and refs and with a constant interpolation speed. *)

Module WaveBackground2.

Section Component.
Context {N : Type} `{Number N}.
Local Open Scope num_scope.

Record Props : Type := {
  maxAmplitude : N;
  baseAmplitude : N;
  waveSpeed : N;
  waveFrequency : N;
  mouseInfluenceRadius : N;
  waveOffset : N
}.

Record Refs : Type := {
  targetMouseX : option N;
  smoothMouseX : N;
  mouseInfluence : N
}.

Variable p : Props.

Definition getAmplitudeAtX (r : Refs) (x : N) : N :=
  if mouseInfluence r <=? lit 0.01 then baseAmplitude p
  else
    let distance := Math_abs (x - smoothMouseX r) in
    let normalizedDistance := Math_min (distance / mouseInfluenceRadius p) (lit 1) in
    let influence := Math_exp (- normalizedDistance * normalizedDistance * lit 3) in
    let targetAmplitude :=
      baseAmplitude p + (maxAmplitude p - baseAmplitude p) * influence in
    baseAmplitude p + (targetAmplitude - baseAmplitude p) * mouseInfluence r.

Definition segments : nat := 100.

Definition waveStep (r : Refs) (time width height segmentWidth : N)
    (path : string) (i : nat) : string :=
  let x := ofNat i * segmentWidth in
  let amplitude := getAmplitudeAtX r x in
  let basePhase := (x / width) * Math_PI * lit 2 * waveFrequency p in
  let timeOffset := time * waveSpeed p in
  let primaryWave := Math_sin (basePhase + timeOffset) in
  let secondaryWave :=
    Math_sin (basePhase * lit 1.5 + timeOffset * lit 0.7) * lit 0.3 in
  let waveY :=
    height - waveOffset p
    - amplitude * (lit 1 + primaryWave + secondaryWave) * lit 0.5 in
  (path ++ " L " ++ toString x ++ " " ++ toString waveY)%string.

Definition generateWavePath (r : Refs) (time width height : N) : string :=
  let segmentWidth := width / ofNat segments in
  let path := ("M 0 " ++ toString (height + lit 10))%string in
  let path :=
    fold_left (waveStep r time width height segmentWidth)
              (seq 0 (S segments)) path in
  (path ++ " L " ++ toString width ++ " " ++ toString (height + lit 10)
        ++ " Z")%string.

Definition animateRefs (r : Refs) : Refs :=
  let lerpSpeed := lit 0.08 in
  let influenceFadeSpeed := lit 0.05 in
  match targetMouseX r with
  | Some target =>
      {| targetMouseX := targetMouseX r;
         smoothMouseX := smoothMouseX r + (target - smoothMouseX r) * lerpSpeed;
         mouseInfluence :=
           mouseInfluence r + (lit 1 - mouseInfluence r) * influenceFadeSpeed |}
  | None =>
      {| targetMouseX := targetMouseX r;
         smoothMouseX := smoothMouseX r;
         mouseInfluence :=
           mouseInfluence r + (lit 0 - mouseInfluence r) * influenceFadeSpeed |}
  end.

(** [animate] of the second component: the refs, then the path. *)
Definition animate (dimensions : WaveBackground.Dimensions N) (time : N)
    (s : Refs * option WaveBackground.SVGPathElement)
    : Refs * option WaveBackground.SVGPathElement :=
  let r' := animateRefs (fst s) in
  let pathRef' :=
    match snd s with
    | Some el =>
        if WaveBackground.width dimensions >? lit 0
        then Some {| WaveBackground.attr_d :=
                       Some (generateWavePath r' time
                               (WaveBackground.width dimensions)
                               (WaveBackground.height dimensions)) |}
        else Some el
    | None => None
    end in
  (r', pathRef').

Definition setTarget (target : option N) (r : Refs) : Refs :=
  {| targetMouseX := target;
     smoothMouseX := smoothMouseX r;
     mouseInfluence := mouseInfluence r |}.

Definition handleMouseMove (containerRef : option (WaveBackground.DOMRect N))
    (e : WaveBackground.MouseEvent N) (r : Refs) : Refs :=
  match containerRef with
  | Some rect =>
      let target :=
        if (WaveBackground.clientX e >=? WaveBackground.rect_left rect)
           && (WaveBackground.clientX e <=? WaveBackground.rect_right rect)
           && (WaveBackground.clientY e >=? WaveBackground.rect_top rect)
           && (WaveBackground.clientY e <=? WaveBackground.rect_bottom rect)
        then Some (WaveBackground.clientX e - WaveBackground.rect_left rect)
        else None in
      setTarget target r
  | None => r
  end.

Definition dispatch (containerRef : option (WaveBackground.DOMRect N))
    (dimensions : WaveBackground.Dimensions N)
    (ev : WaveBackground.Event N)
    (s : Refs * option WaveBackground.SVGPathElement)
    : Refs * option WaveBackground.SVGPathElement :=
  match ev with
  | WaveBackground.MouseMove e => (handleMouseMove containerRef e (fst s), snd s)
  | WaveBackground.AnimationFrame time => animate dimensions time s
  end.

Definition run (containerRef : option (WaveBackground.DOMRect N))
    (dimensions : WaveBackground.Dimensions N)
    (events : list (WaveBackground.Event N))
    (s : Refs * option WaveBackground.SVGPathElement)
    : Refs * option WaveBackground.SVGPathElement :=
  fold_left (fun s ev => dispatch containerRef dimensions ev s) events s.

End Component.

Arguments Props : clear implicits.
Arguments Refs : clear implicits.

End WaveBackground2.

(* ------------------------------------------------------------------ *)
(** ** src/hooks/useScrollBlur.ts *)

Module ScrollBlur.

(** The callback either returns or throws: reading a property through a
    [null] reference is a [TypeError] in JavaScript. *)
Inductive Outcome (A : Type) : Type :=
| Returned (a : A)
| Threw (error : string).
Arguments Returned {A} a.
Arguments Threw {A} error.

Definition bind {A B} (m : Outcome A) (k : A -> Outcome B) : Outcome B :=
  match m with
  | Returned a => k a
  | Threw e => Threw e
  end.

Notation "x <- m ;; k" := (bind m (fun x => k))
  (at level 61, m at next level, right associativity).

(** [ref.current.…]: the node behind the reference, or a [TypeError]. *)
Definition deref {A} (current : option A) : Outcome A :=
  match current with
  | Some a => Returned a
  | None => Threw "TypeError"
  end.

Section Hook.
Context {N : Type} `{Number N}.
Local Open Scope num_scope.

(** What the callback reads and writes of an element: the top of its
    bounding rectangle, and two properties of its inline style. *)
Record HTMLElement : Type := {
  bounding_top : N;
  style_filter : string;
  style_textShadow : string
}.

(** The document: every node with its element; a reference holds a
    node or [null]. *)
Definition Node : Type := nat.
Definition Document : Type := Node -> HTMLElement.

Definition set_filter (n : Node) (v : string) (d : Document) : Document :=
  fun m => if Nat.eqb m n
           then {| bounding_top := bounding_top (d m);
                   style_filter := v;
                   style_textShadow := style_textShadow (d m) |}
           else d m.

Definition set_textShadow (n : Node) (v : string) (d : Document) : Document :=
  fun m => if Nat.eqb m n
           then {| bounding_top := bounding_top (d m);
                   style_filter := style_filter (d m);
                   style_textShadow := v |}
           else d m.

(** The callback that [useScrollBlur] registers with [useLenis];
    [current] is [ref.current], [innerHeight] is [window.innerHeight]. *)
Definition scrollCallback (current : option Node) (innerHeight : N)
    (d : Document) : Outcome Document :=
  match current with
  | None => Returned d                       (* if (!ref.current) return; *)
  | Some _ =>
      el <- deref current ;;
      let rect_top := bounding_top (d el) in
      let viewportHeight := innerHeight in
      let startFade := viewportHeight in
      let endFade := viewportHeight * lit 0.8 in
      let rawProgress := (rect_top - endFade) / (startFade - endFade) in
      let progress := Math_max (lit 0) (Math_min (lit 1) rawProgress) in
      let maxBlur := lit 6 in
      let blurAmount := maxBlur * progress in
      if progress >? lit 0 then
        el1 <- deref current ;;
        let d := set_filter el1 ("blur(" ++ toString blurAmount ++ "px)") d in
        let shadowBlur := blurAmount * lit 3 in
        el2 <- deref current ;;
        Returned
          (set_textShadow el2
             ("0 0 " ++ toString shadowBlur ++ "px rgb(var(--primary) / "
                ++ toString (lit 0.5 * progress) ++ ")") d)
      else
        el1 <- deref current ;;
        let d := set_filter el1 "none" d in
        el2 <- deref current ;;
        Returned (set_textShadow el2 "none" d)
  end.

End Hook.

Arguments HTMLElement : clear implicits.
Arguments Document : clear implicits.

End ScrollBlur.

(* ------------------------------------------------------------------ *)
(** ** src/components/NavMenu.tsx: the language toggle *)

Module NavMenu.

(** The part of the preferences context that [NavMenu] uses.  The
    provider is not among the sources; [setLang] is the setter of the
    [lang] state. *)
Record UserPreferences : Type := {
  lang : string;
  prefersReducedMotion : bool
}.

Definition setLang (l : string) (u : UserPreferences) : UserPreferences :=
  {| lang := l; prefersReducedMotion := prefersReducedMotion u |}.

Definition toggleLang (u : UserPreferences) : UserPreferences :=
  setLang (if String.eqb (lang u) "br" then "en" else "br") u.

(** [title] / [aria-label] of the toggle button. *)
Definition toggleTitle (u : UserPreferences) : string :=
  if String.eqb (lang u) "br" then "Switch to English"
  else "Mudar para Português".

End NavMenu.

(* ------------------------------------------------------------------ *)
(** ** The [Projects] component (second part of NavMenu.tsx) *)

(** [Record<string, string>]: a finite mapping from string keys to
    strings, one value per key. *)
Module StringMap := FMapList.Make OrderedTypeEx.String_as_OT.

Module Projects.

(** [export type Project].  [links] maps a link label to its URL. *)
Record Project : Type := {
  title : string;
  description : string;
  techs : list string;
  links : StringMap.t string
}.

(** The two imported JSON modules.  Their contents are not among the
    sources; they are arrays shared by every render. *)
Record Content : Type := {
  projectsEn : list Project;
  projectsBr : list Project
}.

(** The props handed to one [ProjectCard]. *)
Record ProjectCardProps : Type := {
  card_p : Project;
  card_lang : string;
  card_key : string;
  card_index : nat
}.

(** [const projects = lang === "en" ? projectsEn : projectsBr]. *)
Definition projects (lang : string) (c : Content) : list Project :=
  if String.eqb lang "en" then projectsEn c else projectsBr c.

(** [projects.map((p, index) => <ProjectCard .../>)], from [index]. *)
Fixpoint mapCards (lang : string) (index : nat) (ps : list Project)
    : list ProjectCardProps :=
  match ps with
  | [] => []
  | p :: rest =>
      {| card_p := p; card_lang := lang;
         card_key := "project-card-" ++ title p;
         card_index := index |} :: mapCards lang (S index) rest
  end.

Definition heading (lang : string) : string :=
  if String.eqb lang "en" then "Projects" else "Projetos".

(** One render: the heading, the cards, and the JSON modules as the
    render leaves them. *)
Definition render (lang : string) (c : Content)
    : (string * list ProjectCardProps) * Content :=
  let projects := projects lang c in
  ((heading lang, mapCards lang 0 projects), c).



End Projects.

(* ------------------------------------------------------------------ *)
(** ** The [type] declarations of the sources

    The object types the three files declare, as data: the name of each
    declaration and its fields, with [?] for an optional field. *)

Module TypeDecls.

Inductive TsType : Type :=
| TString
| TNumber
| TArray (element : TsType)
| TRecord (key value : TsType).

Record Field : Type := {
  field_name : string;
  field_optional : bool;
  field_type : TsType
}.

Record TypeDecl : Type := {
  decl_name : string;
  decl_fields : list Field
}.

Definition required (name : string) (ty : TsType) : Field :=
  {| field_name := name; field_optional := false; field_type := ty |}.





(** NavMenu.tsx, [export type Project]. *)
Definition Project : TypeDecl :=
  {| decl_name := "Project";
     decl_fields :=
       [ required "title" TString;
         required "description" TString;
         required "techs" (TArray TString);
         required "links" (TRecord TString TString) ] |}.


End TypeDecls.

(* ------------------------------------------------------------------ *)
(** ** Sample inputs *)

Module Examples.

Definition Z_to_string (z : Z) : string :=
  NilZero.string_of_int (Z.to_int z).

(** A stand-in for the engine, to run the code on samples: crude
    polynomial approximants that respect the values ECMAScript fixes
    ([exp(±0) = 1], [sin(±0) = ±0], NaN to NaN), and a printer that shows
    a double as sign, integer mantissa and binary exponent. *)
Definition sample_exp (x : float) : float :=
  if is_nan x then nan
  else if is_zero x then 1%float
  else (1 + x + x * x / 2)%float.

Definition sample_sin (x : float) : float :=
  if is_nan x || is_infinity x then nan
  else if is_zero x then x
  else (x - x * x * x / 6)%float.

Definition sample_toString (x : float) : string :=
  match Prim2SF x with
  | S754_nan => "NaN"
  | S754_infinity s => if s then "-Infinity" else "Infinity"
  | S754_zero _ => "0"
  | S754_finite s m e =>
      ((if s then "-" else "") ++ Z_to_string (Zpos m) ++ "p" ++ Z_to_string e)%string
  end.

Definition sample_runtime : F64.Runtime :=
  {| F64.exp := sample_exp; F64.sin := sample_sin;
     F64.number_toString := sample_toString |}.

(** The default props of the first component. *)
Definition defaultProps : WaveBackground.Props float :=
  {| WaveBackground.maxAmplitude := 30;
     WaveBackground.baseAmplitude := 8;
     WaveBackground.waveSpeed := 0.001;
     WaveBackground.waveFrequency := 2;
     WaveBackground.mouseInfluenceRadius := 300;
     WaveBackground.waveOffset := 50;
     WaveBackground.mouseLerpSpeed := 0.02;
     WaveBackground.gradientLerpSpeed := 0.002;
     WaveBackground.gradientRangeStart := 1 / 3;
     WaveBackground.gradientRangeEnd := 5 / 6 |}%float.

(** The default props of the second component. *)
Definition defaultProps2 : WaveBackground2.Props float :=
  {| WaveBackground2.maxAmplitude := 30;
     WaveBackground2.baseAmplitude := 8;
     WaveBackground2.waveSpeed := 0.001;
     WaveBackground2.waveFrequency := 2;
     WaveBackground2.mouseInfluenceRadius := 300;
     WaveBackground2.waveOffset := 50 |}%float.

(** Mouse at x = 400, wave centred at 640, influence half faded in. *)
Definition refsHalf : WaveBackground.Refs float :=
  {| WaveBackground.targetMouseX := Some 400%float;
     WaveBackground.smoothMouseX := 640%float;
     WaveBackground.smoothGradientX := 746.5%float;
     WaveBackground.mouseInfluence := 0.5%float |}.

(** No mouse, influence faded out. *)
Definition refsIdle : WaveBackground.Refs float :=
  {| WaveBackground.targetMouseX := None;
     WaveBackground.smoothMouseX := 640%float;
     WaveBackground.smoothGradientX := 746.5%float;
     WaveBackground.mouseInfluence := 0%float |}.

(** Amplitudes 0.3 to 0.9, the mouse fully faded in and the wave centred
    at 640. *)
Definition propsTenths : WaveBackground.Props float :=
  {| WaveBackground.maxAmplitude := 0.9;
     WaveBackground.baseAmplitude := 0.3;
     WaveBackground.waveSpeed := 0.001;
     WaveBackground.waveFrequency := 2;
     WaveBackground.mouseInfluenceRadius := 300;
     WaveBackground.waveOffset := 50;
     WaveBackground.mouseLerpSpeed := 0.02;
     WaveBackground.gradientLerpSpeed := 0.002;
     WaveBackground.gradientRangeStart := 1 / 3;
     WaveBackground.gradientRangeEnd := 5 / 6 |}%float.

Definition refsFull : WaveBackground.Refs float :=
  {| WaveBackground.targetMouseX := Some 640%float;
     WaveBackground.smoothMouseX := 640%float;
     WaveBackground.smoothGradientX := 746.5%float;
     WaveBackground.mouseInfluence := 1%float |}.

(** A zero influence radius, and a container of zero width with the mouse
    on its edge. *)
Definition propsZeroRadius : WaveBackground.Props float :=
  {| WaveBackground.maxAmplitude := 30;
     WaveBackground.baseAmplitude := 8;
     WaveBackground.waveSpeed := 0.001;
     WaveBackground.waveFrequency := 2;
     WaveBackground.mouseInfluenceRadius := 0;
     WaveBackground.waveOffset := 50;
     WaveBackground.mouseLerpSpeed := 0.02;
     WaveBackground.gradientLerpSpeed := 0.002;
     WaveBackground.gradientRangeStart := 1 / 3;
     WaveBackground.gradientRangeEnd := 5 / 6 |}%float.

Definition dimensionsZero : WaveBackground.Dimensions float :=
  {| WaveBackground.width := 0%float; WaveBackground.height := 0%float |}.

Definition refsZero : WaveBackground.Refs float :=
  {| WaveBackground.targetMouseX := Some 0%float;
     WaveBackground.smoothMouseX := 0%float;
     WaveBackground.smoothGradientX := 0%float;
     WaveBackground.mouseInfluence := 0%float |}.

(** Neither the path nor the gradient element is mounted. *)
Definition domEmpty : WaveBackground.Dom :=
  {| WaveBackground.pathRef := None; WaveBackground.gradientRef := None |}.


Definition dimensions1000 : WaveBackground.Dimensions float :=
  {| WaveBackground.width := 1000%float; WaveBackground.height := 600%float |}.


(** Both elements mounted, the path still holding an earlier drawing. *)
Definition domStale : WaveBackground.Dom :=
  {| WaveBackground.pathRef :=
       Some {| WaveBackground.attr_d := Some "M 0 10 L 0 0 L 5 10 Z"%string |};
     WaveBackground.gradientRef :=
       Some {| WaveBackground.style_background := ""%string |} |}.

(** No mouse, a remnant of influence below the threshold, the wave
    centred elsewhere. *)
Definition refsElsewhere : WaveBackground.Refs float :=
  {| WaveBackground.targetMouseX := None;
     WaveBackground.smoothMouseX := 100%float;
     WaveBackground.smoothGradientX := 500%float;
     WaveBackground.mouseInfluence := 0.009%float |}.

(** The default props with the interpolation speed of the second
    component. *)
Definition propsLerp008 : WaveBackground.Props float :=
  {| WaveBackground.maxAmplitude := 30;
     WaveBackground.baseAmplitude := 8;
     WaveBackground.waveSpeed := 0.001;
     WaveBackground.waveFrequency := 2;
     WaveBackground.mouseInfluenceRadius := 300;
     WaveBackground.waveOffset := 50;
     WaveBackground.mouseLerpSpeed := 0.08;
     WaveBackground.gradientLerpSpeed := 0.002;
     WaveBackground.gradientRangeStart := 1 / 3;
     WaveBackground.gradientRangeEnd := 5 / 6 |}%float.

(** The same component in exact arithmetic. *)
Definition no_toString (x : R) : string := EmptyString.

Definition defaultPropsR : WaveBackground.Props R :=
  {| WaveBackground.maxAmplitude := 30;
     WaveBackground.baseAmplitude := 8;
     WaveBackground.waveSpeed := 1 / 1000;
     WaveBackground.waveFrequency := 2;
     WaveBackground.mouseInfluenceRadius := 300;
     WaveBackground.waveOffset := 50;
     WaveBackground.mouseLerpSpeed := 2 / 100;
     WaveBackground.gradientLerpSpeed := 2 / 1000;
     WaveBackground.gradientRangeStart := 1 / 3;
     WaveBackground.gradientRangeEnd := 5 / 6 |}%R.

Definition refsHalfR : WaveBackground.Refs R :=
  {| WaveBackground.targetMouseX := Some 400%R;
     WaveBackground.smoothMouseX := 640%R;
     WaveBackground.smoothGradientX := 700%R;
     WaveBackground.mouseInfluence := (1 / 2)%R |}.

Definition refsIdleR : WaveBackground.Refs R :=
  {| WaveBackground.targetMouseX := None;
     WaveBackground.smoothMouseX := 640%R;
     WaveBackground.smoothGradientX := 700%R;
     WaveBackground.mouseInfluence := 0%R |}.

Definition refsHalf2 : WaveBackground2.Refs float :=
  {| WaveBackground2.targetMouseX := Some 400%float;
     WaveBackground2.smoothMouseX := 640%float;
     WaveBackground2.mouseInfluence := 0.5%float |}.

Definition dimensionsR : WaveBackground.Dimensions R :=
  {| WaveBackground.width := 1280%R; WaveBackground.height := 720%R |}.

(** A gradient that follows the mouse over [0.1 w, 0.4 w] at speed 0.5,
    in a container 1366 wide; the mouse is at the right edge and the
    gradient at the right end of its range. *)
Definition propsGradient : WaveBackground.Props float :=
  {| WaveBackground.maxAmplitude := 30;
     WaveBackground.baseAmplitude := 8;
     WaveBackground.waveSpeed := 0.001;
     WaveBackground.waveFrequency := 2;
     WaveBackground.mouseInfluenceRadius := 300;
     WaveBackground.waveOffset := 50;
     WaveBackground.mouseLerpSpeed := 0.02;
     WaveBackground.gradientLerpSpeed := 0.5;
     WaveBackground.gradientRangeStart := 0.1;
     WaveBackground.gradientRangeEnd := 0.4 |}%float.

Definition dimensions1366 : WaveBackground.Dimensions float :=
  {| WaveBackground.width := 1366%float; WaveBackground.height := 768%float |}.

Definition refsRightEdge : WaveBackground.Refs float :=
  {| WaveBackground.targetMouseX := Some 1366%float;
     WaveBackground.smoothMouseX := 683%float;
     WaveBackground.smoothGradientX := (0.4 * 1366)%float;
     WaveBackground.mouseInfluence := 0%float |}.

(** Two documents whose node 0 has its top at 700, with different
    styles left by earlier scrolls. *)
Definition docFresh : ScrollBlur.Document float :=
  fun _ => {| ScrollBlur.bounding_top := 700%float;
              ScrollBlur.style_filter := "";
              ScrollBlur.style_textShadow := "" |}.

Definition docBlurred : ScrollBlur.Document float :=
  fun n => {| ScrollBlur.bounding_top := (if Nat.eqb n 3 then 700 else 12)%float;
              ScrollBlur.style_filter := "blur(6px)";
              ScrollBlur.style_textShadow := "none" |}.

(** A container filling a 1280 by 720 window, and the mouse moving over
    it before a frame. *)
Definition rectR : WaveBackground.DOMRect R :=
  {| WaveBackground.rect_left := 0%R; WaveBackground.rect_right := 1280%R;
     WaveBackground.rect_top := 0%R; WaveBackground.rect_bottom := 720%R |}.

Definition eventsR : list (WaveBackground.Event R) :=
  [ WaveBackground.MouseMove
      {| WaveBackground.clientX := 400%R; WaveBackground.clientY := 100%R |};
    WaveBackground.AnimationFrame 16%R ].

(** A document in exact arithmetic whose elements sit at the bottom of a
    viewport 768 high. *)
Definition docBottomR : ScrollBlur.Document R :=
  fun _ => {| ScrollBlur.bounding_top := 800%R;
              ScrollBlur.style_filter := "";
              ScrollBlur.style_textShadow := "" |}.

(** A document whose elements sit at the very top, seen in a viewport of
    height 0. *)
Definition docOrigin : ScrollBlur.Document float :=
  fun _ => {| ScrollBlur.bounding_top := 0%float;
              ScrollBlur.style_filter := "blur(6px)";
              ScrollBlur.style_textShadow := "" |}.

Definition prefsBr : NavMenu.UserPreferences :=
  {| NavMenu.lang := "br"; NavMenu.prefersReducedMotion := false |}.

Definition prefsEn : NavMenu.UserPreferences :=
  {| NavMenu.lang := "en"; NavMenu.prefersReducedMotion := true |}.

Definition sampleLinks : StringMap.t string :=
  StringMap.add "GitHub"%string "https://example.org/boids"%string
    (StringMap.add "Demo"%string "https://example.org/boids/demo"%string
       (StringMap.empty string)).

Definition sampleContent : Projects.Content :=
  {| Projects.projectsEn :=
       [ {| Projects.title := "Boids";
            Projects.description := "A flocking simulation";
            Projects.techs := ["TypeScript"; "Canvas"]%string;
            Projects.links := sampleLinks |} ];
     Projects.projectsBr :=
       [ {| Projects.title := "Boids";
            Projects.description := "Uma simulacao de bando";
            Projects.techs := ["TypeScript"; "Canvas"]%string;
            Projects.links := sampleLinks |};
         {| Projects.title := "Portfolio";
            Projects.description := "Este site";
            Projects.techs := ["React"]%string;
            Projects.links := StringMap.empty string |} ] |}.

End Examples.

(* ------------------------------------------------------------------ *)
(** ** What the specification says, as definitions *)

(** [g] lies in the configured gradient range of a container [w] wide. *)
Definition inGradientRange (p : WaveBackground.Props R) (w g : R) : Prop :=
  (WaveBackground.gradientRangeStart p * w <= g
   <= WaveBackground.gradientRangeEnd p * w)%R.

Definition concatAll (l : list string) : string :=
  fold_right String.append EmptyString l.

Section WavePathSpec.
Context {N : Type} `{Number N}.
Local Open Scope num_scope.
Variable p : WaveBackground.Props N.
Variable r : WaveBackground.Refs N.
Variables t w h : N.

(** The [i]-th point of the wave: [x_i] is [i] segment widths [w / 100]
    from the left, and [y_i] is the wave height there.  Products are
    grouped as the code evaluates them (binary64 multiplication is not
    associative). *)
Definition wave_x (i : nat) : N := ofNat i * (w / lit 100).

(** The abscissa as the specification writes it, [i * w / 100]: the
    product first, then the division. *)
Definition wave_x_as_stated (i : nat) : N := ofNat i * w / lit 100.

Definition wave_phase (i : nat) : N :=
  (wave_x i / w) * Math_PI * lit 2 * WaveBackground.waveFrequency p.

Definition wave_y (i : nat) : N :=
  h - WaveBackground.waveOffset p
  - WaveBackground.getAmplitudeAtX p r (wave_x i)
    * (lit 1
       + Math_sin (wave_phase i + t * WaveBackground.waveSpeed p)
       + Math_sin (wave_phase i * lit 1.5
                   + t * WaveBackground.waveSpeed p * lit 0.7) * lit 0.3)
    * lit 0.5.

(** One line-to command of the path. *)
Definition lineTo (i : nat) : string :=
  (" L " ++ toString (wave_x i) ++ " " ++ toString (wave_y i))%string.

(** The closed path: bottom-left corner, the 101 wave points from left
    to right, bottom-right corner, close. *)
Definition closedWavePath : string :=
  ("M 0 " ++ toString (h + lit 10)
     ++ concatAll (map lineTo (seq 0 101))
     ++ " L " ++ toString w ++ " " ++ toString (h + lit 10) ++ " Z")%string.

End WavePathSpec.

Section BlurSpec.
Context {N : Type} `{Number N}.
Local Open Scope num_scope.

(** The blur and the glow as functions of the geometry alone: the top of
    the element and the height of the viewport. *)
Definition progressOf (top vh : N) : N :=
  Math_max (lit 0) (Math_min (lit 1) ((top - vh * lit 0.8) / (vh - vh * lit 0.8))).

Definition filterOf (top vh : N) : string :=
  if progressOf top vh >? lit 0
  then ("blur(" ++ toString (lit 6 * progressOf top vh) ++ "px)")%string
  else "none"%string.

Definition textShadowOf (top vh : N) : string :=
  if progressOf top vh >? lit 0
  then ("0 0 " ++ toString (lit 6 * progressOf top vh * lit 3)
          ++ "px rgb(var(--primary) / "
          ++ toString (lit 0.5 * progressOf top vh) ++ ")")%string
  else "none"%string.

End BlurSpec.

(* ------------------------------------------------------------------ *)
(** ** Notions used to state the behaviour of the handlers *)

(** The pointer of a mouse event is over the rectangle, borders
    included. *)
Definition insideRect (rect : WaveBackground.DOMRect R)
    (e : WaveBackground.MouseEvent R) : Prop :=
  (WaveBackground.rect_left rect <= WaveBackground.clientX e
   <= WaveBackground.rect_right rect)%R
  /\ (WaveBackground.rect_top rect <= WaveBackground.clientY e
      <= WaveBackground.rect_bottom rect)%R.

(** The centre of the gradient range of a container [w] wide, where the
    gradient drifts when the mouse is away. *)
Definition gradientCentre (p : WaveBackground.Props R) (w : R) : R :=
  (w * (WaveBackground.gradientRangeStart p
        + (WaveBackground.gradientRangeEnd p
           - WaveBackground.gradientRangeStart p) / 2))%R.

(** The point of the gradient range that the mouse at [mx] maps to. *)
Definition gradientTarget (p : WaveBackground.Props R) (w mx : R) : R :=
  (mx / w * (w * (WaveBackground.gradientRangeEnd p
                  - WaveBackground.gradientRangeStart p))
   + w * WaveBackground.gradientRangeStart p)%R.

(** What a run from the mount keeps true of the refs: the mouse is
    within the width and the gradient within its range. *)
Definition withinLayout (p : WaveBackground.Props R)
    (dimensions : WaveBackground.Dimensions R) (r : WaveBackground.Refs R)
    : Prop :=
  (forall mx, WaveBackground.targetMouseX r = Some mx ->
              (0 <= mx <= WaveBackground.width dimensions)%R)
  /\ inGradientRange p (WaveBackground.width dimensions)
                     (WaveBackground.smoothGradientX r).

(** The refs the two components have in common hold the same values. *)
Definition sameRefs {N : Type} (r1 : WaveBackground.Refs N)
    (r2 : WaveBackground2.Refs N) : Prop :=
  WaveBackground.targetMouseX r1 = WaveBackground2.targetMouseX r2
  /\ WaveBackground.smoothMouseX r1 = WaveBackground2.smoothMouseX r2
  /\ WaveBackground.mouseInfluence r1 = WaveBackground2.mouseInfluence r2.

(** The two components are in the same state: same shared refs, same
    path element. *)
Definition sameState {N : Type}
    (s1 : WaveBackground.Refs N * WaveBackground.Dom)
    (s2 : WaveBackground2.Refs N * option WaveBackground.SVGPathElement)
    : Prop :=
  sameRefs (fst s1) (fst s2) /\ WaveBackground.pathRef (snd s1) = snd s2.

(* ================================================================== *)
(** * Properties *)

(** ** Facts of binary64 arithmetic used below *)

Section SpecFloatFacts.
Variables prec emax : Z.

Lemma SFmul_comm (x y : spec_float) : SFmul prec emax x y = SFmul prec emax y x.
Proof.
  destruct x as [sx|sx| |sx mx ex], y as [sy|sy| |sy my ey]; simpl;
    rewrite ?(xorb_comm sx sy); try reflexivity.
  now rewrite Pos.mul_comm, Z.add_comm.
Qed.

Lemma SFopp_binary_round_aux (s : bool) (m e : Z) (l : location) :
  SFopp (binary_round_aux prec emax s m e l)
  = binary_round_aux prec emax (negb s) m e l.
Proof.
  unfold binary_round_aux.
  destruct (shr_fexp prec emax m e l) as [mrs' e'].
  destruct (shr_fexp prec emax _ e' loc_Exact) as [mrs'' e''].
  destruct (shr_m mrs''); simpl; try reflexivity.
  now destruct (Z.leb e'' (Z.sub emax prec)).
Qed.

Lemma SFmul_opp_l (x y : spec_float) :
  SFmul prec emax (SFopp x) y = SFopp (SFmul prec emax x y).
Proof.
  destruct x as [sx|sx| |sx mx ex], y as [sy|sy| |sy my ey]; simpl;
    rewrite ?SFopp_binary_round_aux; try reflexivity;
    now destruct sx, sy.
Qed.

Lemma SFcompare_Lt_Gt (x y : spec_float) :
  SFcompare x y = Some Lt -> SFcompare y x = Some Gt.
Proof.
  destruct x as [sx|sx| |sx mx ex], y as [sy|sy| |sy my ey]; simpl;
    try discriminate; try (destruct sx; discriminate);
    try (destruct sy; discriminate);
    try (destruct sx, sy; (discriminate || reflexivity)).
  assert (A : Pos.compare_cont Eq my mx = CompOpp (Pos.compare_cont Eq mx my))
    by (symmetry; apply (Pos.compare_cont_antisym mx my Eq)).
  destruct sx, sy; try discriminate; try reflexivity;
    rewrite (Z.compare_antisym ex ey);
    destruct (Z.compare ex ey); simpl; try discriminate; try reflexivity;
    rewrite A; destruct (Pos.compare_cont Eq mx my); simpl;
    try discriminate; reflexivity.
Qed.

End SpecFloatFacts.

Lemma float_mul_comm (x y : float) : (x * y = y * x)%float.
Proof.
  apply Prim2SF_inj. rewrite !mul_spec. apply SFmul_comm.
Qed.

Lemma float_mul_opp_l (x y : float) : (- x * y = - (x * y))%float.
Proof.
  apply Prim2SF_inj. rewrite mul_spec, !opp_spec, mul_spec. apply SFmul_opp_l.
Qed.

Lemma float_ltb_leb (x y : float) :
  (x <? y)%float = true -> (y <=? x)%float = false.
Proof.
  rewrite ltb_spec, leb_spec. unfold SFltb, SFleb.
  destruct (SFcompare (Prim2SF x) (Prim2SF y)) as [[| |]|] eqn:E; try discriminate.
  intros _. now rewrite (SFcompare_Lt_Gt _ _ E).
Qed.

(** The exponent of the falloff: the code's [-d * d * 3] is [-3 * d^2],
    bit for bit. *)
Lemma falloff_exponent (d : float) : (- d * d * 3 = - 3 * (d * d))%float.
Proof.
  rewrite (float_mul_opp_l d d), (float_mul_opp_l (d * d) 3).
  rewrite (float_mul_comm (d * d) 3).
  change (-3)%float with (PrimFloat.opp 3). symmetry. apply float_mul_opp_l.
Qed.

(** The literals of the source are the doubles JavaScript reads them as. *)
Lemma literals_binary64 :
  F64.of_Q 0 = 0%float /\ F64.of_Q 1 = 1%float /\ F64.of_Q 2 = 2%float
  /\ F64.of_Q 3 = 3%float /\ F64.of_Q 6 = 6%float /\ F64.of_Q 10 = 10%float
  /\ F64.of_Q 100 = 100%float
  /\ F64.of_Q 0.01 = 0.01%float /\ F64.of_Q 0.05 = 0.05%float
  /\ F64.of_Q 0.08 = 0.08%float /\ F64.of_Q 0.3 = 0.3%float
  /\ F64.of_Q 0.5 = 0.5%float /\ F64.of_Q 0.7 = 0.7%float
  /\ F64.of_Q 0.8 = 0.8%float /\ F64.of_Q 1.5 = 1.5%float.
Proof. repeat split; vm_compute; reflexivity. Qed.

(** [Math.min] and [Math.max] on the special values. *)
Example Math_min_max_special :
  F64.min nan 1 = nan /\ F64.max 0 nan = nan
  /\ F64.min (-0) 0 = (-0)%float /\ F64.min 0 (-0) = (-0)%float
  /\ F64.max (-0) 0 = 0%float /\ F64.max 0 (-0) = 0%float
  /\ F64.min 2 1 = 1%float /\ F64.max 2 1 = 2%float
  /\ F64.min neg_infinity 1 = neg_infinity /\ F64.max infinity 1 = infinity.
Proof. repeat split; vm_compute; reflexivity. Qed.

(** ** The wave amplitude *)

Section Amplitude.
Import WaveBackground.
Variable rt : F64.Runtime.
Variable p : Props float.
Variable r : Refs float.

Lemma getAmplitudeAtX_unfold (x : float) :
  getAmplitudeAtX (H := binary64 rt) p r x
  = if (mouseInfluence r <=? 0.01)%float then baseAmplitude p
    else
      let d := F64.min (abs (x - smoothMouseX r) / mouseInfluenceRadius p) 1 in
      (baseAmplitude p
       + (baseAmplitude p
          + (maxAmplitude p - baseAmplitude p) * F64.exp rt (- d * d * 3)
          - baseAmplitude p) * mouseInfluence r)%float.
Proof. reflexivity. Qed.

End Amplitude.

(** C1.  In binary64, for every sample [x]: when the blend factor
    [mouseInfluence] is greater than 0.01, [getAmplitudeAtX] returns
    [base + ((base + (max - base) * exp(-3 * d^2)) - base) * influence]
    with [d = min(|x - smoothMouseX| / mouseInfluenceRadius, 1)]; when the
    blend factor is at most 0.01 it returns [baseAmplitude]. *)
Theorem getAmplitudeAtX_closed_form
    (rt : F64.Runtime) (p : WaveBackground.Props float)
    (r : WaveBackground.Refs float) (x : float) :
  let base := WaveBackground.baseAmplitude p in
  let maxA := WaveBackground.maxAmplitude p in
  let influence := WaveBackground.mouseInfluence r in
  let d := F64.min (abs (x - WaveBackground.smoothMouseX r)
                    / WaveBackground.mouseInfluenceRadius p) 1 in
  ((0.01 <? influence)%float = true ->
   WaveBackground.getAmplitudeAtX (H := binary64 rt) p r x
   = (base + ((base + (maxA - base) * F64.exp rt (-3 * (d * d))) - base)
             * influence)%float)
  /\ ((influence <=? 0.01)%float = true ->
      WaveBackground.getAmplitudeAtX (H := binary64 rt) p r x = base).
Proof.
  intros base maxA influence d. rewrite getAmplitudeAtX_unfold.
  subst base maxA influence. split; intros Hc.
  - rewrite (float_ltb_leb _ _ Hc). cbv zeta.
    fold d. now rewrite falloff_exponent.
  - now rewrite Hc.
Qed.

Lemma getAmplitudeAtX_closed_form_witness :
  WaveBackground.getAmplitudeAtX (H := binary64 Examples.sample_runtime)
    Examples.defaultProps Examples.refsHalf 640%float = 19%float
  /\ WaveBackground.getAmplitudeAtX (H := binary64 Examples.sample_runtime)
       Examples.defaultProps Examples.refsIdle 640%float = 8%float.
Proof.
  split.
  - rewrite (proj1 (getAmplitudeAtX_closed_form Examples.sample_runtime
                      Examples.defaultProps Examples.refsHalf 640%float)).
    + vm_compute. reflexivity.
    + vm_compute. reflexivity.
  - apply (proj2 (getAmplitudeAtX_closed_form Examples.sample_runtime
                    Examples.defaultProps Examples.refsIdle 640%float)).
    vm_compute. reflexivity.
Defined.

(** In exact arithmetic the falloff factor lies in (0, 1]. *)
Lemma falloff_bounds (d : R) : (0 < exp (- d * d * 3) <= 1)%R.
Proof.
  split; [apply exp_pos|].
  rewrite <- exp_0.
  destruct (Req_dec (- d * d * 3) 0) as [E|E]; [rewrite E; lra|].
  left. apply exp_increasing. nra.
Qed.

(** The literals of the source, read exactly. *)
Lemma Q2R_lit_0 : Q2R 0 = 0%R.
Proof. unfold Q2R; simpl. lra. Qed.
Lemma Q2R_lit_1 : Q2R 1 = 1%R.
Proof. unfold Q2R; simpl. lra. Qed.
Lemma Q2R_lit_2 : Q2R 2 = 2%R.
Proof. unfold Q2R; simpl. lra. Qed.
Lemma Q2R_lit_3 : Q2R 3 = 3%R.
Proof. unfold Q2R; simpl. lra. Qed.
Lemma Q2R_lit_0_01 : Q2R 0.01 = (1 / 100)%R.
Proof. unfold Q2R; simpl. lra. Qed.
Lemma Q2R_lit_0_05 : Q2R 0.05 = (5 / 100)%R.
Proof. unfold Q2R; simpl. lra. Qed.

Create Rewrite HintDb exact_lit.
#[local] Hint Rewrite Q2R_lit_0 Q2R_lit_1 Q2R_lit_2 Q2R_lit_3
  Q2R_lit_0_01 Q2R_lit_0_05 : exact_lit.




(** In binary64 the function itself can round past the maximum when it
    is called with the blend factor at 1 exactly: with amplitudes 0.3 and
    0.9 the sample at the wave centre is 0.9000000000000001.  The frames
    do not produce that state (see [mouseInfluence_settles_below_one]). *)
Remark getAmplitudeAtX_rounds_past_max_at_one :
  (WaveBackground.baseAmplitude Examples.propsTenths
   <=? WaveBackground.maxAmplitude Examples.propsTenths)%float = true
  /\ (0 <=? WaveBackground.mouseInfluence Examples.refsFull)%float = true
  /\ (WaveBackground.mouseInfluence Examples.refsFull <=? 1)%float = true
  /\ forall rt : F64.Runtime,
       F64.exp rt (-0)%float = 1%float ->
       (WaveBackground.maxAmplitude Examples.propsTenths
        <? WaveBackground.getAmplitudeAtX (H := binary64 rt)
             Examples.propsTenths Examples.refsFull 640)%float = true.
Proof.
  repeat split; try (vm_compute; reflexivity).
  intros rt He. rewrite getAmplitudeAtX_unfold.
  change (WaveBackground.mouseInfluence Examples.refsFull <=? 0.01)%float
    with false.
  cbv zeta.
  change (F64.min _ _) with 0%float.
  change (- 0 * 0 * 3)%float with (-0)%float.
  rewrite He. vm_compute. reflexivity.
Qed.

(** With the pointer held over the container the blend factor climbs
    frame by frame and settles at 0.9999999999999989, short of 1: from
    there a frame leaves it where it is. *)
Remark mouseInfluence_settles_below_one (rt : F64.Runtime) :
  let p := Examples.defaultProps in
  let held := fun n : nat =>
    fst (WaveBackground.frames (H := binary64 rt) p Examples.dimensions1000
           (repeat (Some 500%float, 0%float) n)
           (WaveBackground.mountedRefs (H := binary64 rt) p 1000%float,
            Examples.domEmpty)) in
  WaveBackground.mouseInfluence (held 669%nat) = 0.9999999999999989%float
  /\ WaveBackground.mouseInfluence (held 670%nat) = 0.9999999999999989%float
  /\ (WaveBackground.mouseInfluence (held 668%nat) <? 0.9999999999999989)%float
     = true.
Proof.
  repeat split; vm_compute; reflexivity.
Qed.

(** ** The gradient position *)

(** A step [g + (t - g) * k] towards a target inside an interval stays
    inside it. *)
Lemma lerp_between (lo hi g t k : R) :
  (lo <= g <= hi -> lo <= t <= hi -> 0 <= k <= 1 ->
   lo <= g + (t - g) * k <= hi)%R.
Proof.
  intros Hg Ht Hk.
  replace (g + (t - g) * k)%R with (g * (1 - k) + t * k)%R by ring.
  split; nra.
Qed.

(** One frame keeps the gradient in range, in exact arithmetic. *)
Lemma animateRefs_gradient_in_range_exact
    (str : R -> string) (p : WaveBackground.Props R)
    (dimensions : WaveBackground.Dimensions R) (r : WaveBackground.Refs R) :
  (0 < WaveBackground.width dimensions)%R ->
  (WaveBackground.gradientRangeStart p <= WaveBackground.gradientRangeEnd p)%R ->
  (0 <= WaveBackground.gradientLerpSpeed p <= 1)%R ->
  (forall mx, WaveBackground.targetMouseX r = Some mx ->
              0 <= mx <= WaveBackground.width dimensions)%R ->
  inGradientRange p (WaveBackground.width dimensions)
                  (WaveBackground.smoothGradientX r) ->
  inGradientRange p (WaveBackground.width dimensions)
    (WaveBackground.smoothGradientX
       (WaveBackground.animateRefs (H := exact str) p dimensions r)).
Proof.
  unfold inGradientRange, WaveBackground.animateRefs.
  set (w := WaveBackground.width dimensions).
  set (s := WaveBackground.gradientRangeStart p).
  set (e := WaveBackground.gradientRangeEnd p).
  intros Hw Hse Hk Hmx Hg.
  destruct (WaveBackground.targetMouseX r) as [mx|]; simpl;
    autorewrite with exact_lit; apply lerp_between; try assumption.
  - specialize (Hmx mx eq_refl).
    replace (mx / w * (w * (e - s)) + w * s)%R
      with (s * w + mx * (e - s))%R by (field; lra).
    split; nra.
  - split; nra.
Qed.

(** C9, amended.  In exact arithmetic and for a container of positive
    width: if [gradientRangeStart <= gradientRangeEnd], [gradientLerpSpeed]
    is in [0, 1], the raw mouse x of every frame (when the mouse is present)
    is within [0, width], and [smoothGradientX] starts inside
    [[gradientRangeStart * width, gradientRangeEnd * width]], then it is
    inside that interval after every animation frame, with the mouse
    present or absent. *)
Theorem smoothGradientX_stays_in_range_exact
    (str : R -> string) (p : WaveBackground.Props R)
    (dimensions : WaveBackground.Dimensions R)
    (inputs : list (option R * R))
    (s : WaveBackground.Refs R * WaveBackground.Dom) :
  (0 < WaveBackground.width dimensions)%R ->
  (WaveBackground.gradientRangeStart p <= WaveBackground.gradientRangeEnd p)%R ->
  (0 <= WaveBackground.gradientLerpSpeed p <= 1)%R ->
  Forall (fun input => forall mx, fst input = Some mx ->
                                  (0 <= mx <= WaveBackground.width dimensions)%R)
         inputs ->
  inGradientRange p (WaveBackground.width dimensions)
                  (WaveBackground.smoothGradientX (fst s)) ->
  inGradientRange p (WaveBackground.width dimensions)
    (WaveBackground.smoothGradientX
       (fst (WaveBackground.frames (H := exact str) p dimensions inputs s))).
Proof.
  intros Hw Hse Hk Hin. revert s.
  induction Hin as [|[target time] inputs Hmx _ IH]; intros s Hg; simpl.
  - exact Hg.
  - apply IH. unfold WaveBackground.animate. simpl.
    apply animateRefs_gradient_in_range_exact; try assumption.
Qed.

Lemma smoothGradientX_stays_in_range_exact_witness :
  inGradientRange Examples.defaultPropsR 1280
    (WaveBackground.smoothGradientX
       (fst (WaveBackground.frames (H := exact Examples.no_toString)
               Examples.defaultPropsR Examples.dimensionsR
               [(Some 400%R, 16%R); (None, 33%R)]
               (Examples.refsIdleR, Examples.domEmpty)))).
Proof.
  apply (smoothGradientX_stays_in_range_exact Examples.no_toString
           Examples.defaultPropsR Examples.dimensionsR
           [(Some 400%R, 16%R); (None, 33%R)]
           (Examples.refsIdleR, Examples.domEmpty)).
  - simpl; lra.
  - simpl; lra.
  - simpl; lra.
  - apply Forall_cons; [simpl; intros mx E; injection E as <-; lra|].
    apply Forall_cons; [simpl; intros mx E; discriminate | apply Forall_nil].
  - unfold inGradientRange; simpl; lra.
Defined.

(** C9 as stated fails in binary64.  Take the range [0.1 w, 0.4 w], speed
    0.5 and a container 1366 wide; the gradient starts where the mount
    effect puts it (the centre of the range) and the mouse stays at the
    right edge.  After 52 frames the gradient is at 546.4000000000001,
    past [gradientRangeEnd * width] = 546.4. *)
Lemma smoothGradientX_leaves_range :
  let p := Examples.propsGradient in
  let w := WaveBackground.width Examples.dimensions1366 in
  (WaveBackground.gradientRangeStart p <=? WaveBackground.gradientRangeEnd p)%float
    = true
  /\ ((0 <=? WaveBackground.gradientLerpSpeed p)
      && (WaveBackground.gradientLerpSpeed p <=? 1))%float = true
  /\ ((0 <=? 1366) && (1366 <=? w))%float = true
  /\ forall rt : F64.Runtime,
       let mounted :=
         WaveBackground.initPositions (H := binary64 rt) p (Some w)
           (WaveBackground.initialRefs (H := binary64 rt)) in
       let after52 :=
         fst (WaveBackground.frames (H := binary64 rt) p Examples.dimensions1366
                (repeat (Some 1366%float, 0%float) 52)
                (mounted, Examples.domEmpty)) in
       ((WaveBackground.gradientRangeStart p * w
           <=? WaveBackground.smoothGradientX mounted)
        && (WaveBackground.smoothGradientX mounted
              <=? WaveBackground.gradientRangeEnd p * w))%float = true
       /\ (WaveBackground.gradientRangeEnd p * w
           <? WaveBackground.smoothGradientX after52)%float = true.
Proof.
  repeat split; vm_compute; reflexivity.
Qed.

(** One frame is enough from the right end of the range. *)
Remark smoothGradientX_leaves_range_in_one_frame (rt : F64.Runtime) :
  let p := Examples.propsGradient in
  let w := WaveBackground.width Examples.dimensions1366 in
  let r := Examples.refsRightEdge in
  ((WaveBackground.gradientRangeStart p * w <=? WaveBackground.smoothGradientX r)
   && (WaveBackground.smoothGradientX r <=? WaveBackground.gradientRangeEnd p * w))%float
  = true
  /\ (WaveBackground.gradientRangeEnd p * w
      <? WaveBackground.smoothGradientX
           (WaveBackground.animateRefs (H := binary64 rt) p
              Examples.dimensions1366 r))%float = true.
Proof.
  split; vm_compute; reflexivity.
Qed.

(** ** The wave path *)

Lemma append_assoc (a b c : string) : ((a ++ b) ++ c = a ++ b ++ c)%string.
Proof. induction a as [|ch a IH]; simpl; [reflexivity | now rewrite IH]. Qed.

Section WavePath.
Context {N : Type} `{Number N}.
Variable p : WaveBackground.Props N.
Variable r : WaveBackground.Refs N.
Variables t w h : N.

Lemma waveStep_lineTo (path : string) (i : nat) :
  WaveBackground.waveStep p r t w h (ndiv w (ofNat WaveBackground.segments)) path i
  = (path ++ lineTo p r t w h i)%string.
Proof. reflexivity. Qed.

(** The loop appends one line-to per index, in order. *)
Lemma wave_loop (l : list nat) (path : string) :
  fold_left (WaveBackground.waveStep p r t w h
               (ndiv w (ofNat WaveBackground.segments))) l path
  = (path ++ concatAll (map (lineTo p r t w h) l))%string.
Proof.
  revert path. induction l as [|i l IH]; intros path; simpl.
  - induction path as [|ch path IHp]; simpl; [reflexivity | now rewrite <- IHp].
  - now rewrite IH, waveStep_lineTo, append_assoc.
Qed.

Lemma generateWavePath_closed :
  WaveBackground.generateWavePath p r t w h = closedWavePath p r t w h.
Proof.
  unfold WaveBackground.generateWavePath, closedWavePath. cbv zeta.
  rewrite wave_loop. change (S WaveBackground.segments) with 101%nat.
  now rewrite !append_assoc.
Qed.

End WavePath.

Lemma Q2R_lit_10 : Q2R 10 = 10%R.
Proof. unfold Q2R; simpl. lra. Qed.
Lemma Q2R_lit_100 : Q2R 100 = 100%R.
Proof. unfold Q2R; simpl. lra. Qed.
Lemma Q2R_lit_0_3 : Q2R 0.3 = (3 / 10)%R.
Proof. unfold Q2R; simpl. lra. Qed.
Lemma Q2R_lit_0_5 : Q2R 0.5 = (5 / 10)%R.
Proof. unfold Q2R; simpl. lra. Qed.
Lemma Q2R_lit_0_7 : Q2R 0.7 = (7 / 10)%R.
Proof. unfold Q2R; simpl. lra. Qed.
Lemma Q2R_lit_1_5 : Q2R 1.5 = (15 / 10)%R.
Proof. unfold Q2R; simpl. lra. Qed.

#[local] Hint Rewrite Q2R_lit_10 Q2R_lit_100 Q2R_lit_0_3 Q2R_lit_0_5
  Q2R_lit_0_7 Q2R_lit_1_5 : exact_lit.

Lemma ofNat_exact (str : R -> string) (i : nat) :
  ofNat (H := exact str) i = INR i.
Proof.
  unfold ofNat. simpl. unfold Q2R. simpl. rewrite INR_IZR_INZ. field.
Qed.

(** In exact arithmetic the grouping does not matter: the points are those
    of the formulas as usually written. *)
Lemma wave_points_exact (str : R -> string) (p : WaveBackground.Props R)
    (r : WaveBackground.Refs R) (t w h : R) (i : nat) :
  (0 < w)%R ->
  let amplitude := WaveBackground.getAmplitudeAtX (H := exact str) p r in
  let x_i := (INR i * w / 100)%R in
  let phase_i := (x_i / w * 2 * PI * WaveBackground.waveFrequency p)%R in
  wave_x (H := exact str) w i = x_i
  /\ wave_x_as_stated (H := exact str) w i = x_i
  /\ wave_y (H := exact str) p r t w h i
     = (h - WaveBackground.waveOffset p
        - amplitude x_i
          * (1 + sin (phase_i + t * WaveBackground.waveSpeed p)
             + 3 / 10 * sin (15 / 10 * phase_i
                             + 7 / 10 * t * WaveBackground.waveSpeed p))
          * (5 / 10))%R.
Proof.
  intros Hw amplitude x_i phase_i.
  assert (Ex : wave_x (H := exact str) w i = x_i).
  { unfold wave_x, x_i. rewrite ofNat_exact. simpl.
    autorewrite with exact_lit. field. }
  split; [exact Ex|]. split.
  { unfold wave_x_as_stated, x_i. rewrite ofNat_exact. simpl.
    autorewrite with exact_lit. reflexivity. }
  unfold wave_y, wave_phase. rewrite Ex. simpl.
  autorewrite with exact_lit. fold amplitude. fold phase_i.
  replace (x_i / w * PI * 2 * WaveBackground.waveFrequency p)%R
    with phase_i by (unfold phase_i; ring).
  replace (phase_i * (15 / 10) + t * WaveBackground.waveSpeed p * (7 / 10))%R
    with (15 / 10 * phase_i + 7 / 10 * t * WaveBackground.waveSpeed p)%R by ring.
  ring.
Qed.

(** C3 as stated fails in binary64: the code multiplies [i] by the rounded
    segment width [w / 100], which is not [i * w / 100].  In a container
    1366 pixels wide the fourth point ([i = 3]) is drawn at
    [x = 40.980000000000004], for every configuration, state, time and
    height, while [3 * 1366 / 100] is [40.98]. *)
Lemma generateWavePath_abscissa_not_as_stated :
  let w := 1366%float in
  (0 <? w)%float = true
  /\ (forall (rt : F64.Runtime) (p : WaveBackground.Props float)
             (r : WaveBackground.Refs float) (t h : float) (path : string),
        WaveBackground.waveStep (H := binary64 rt) p r t w h
          (ndiv (Number := binary64 rt) w (ofNat (H := binary64 rt) WaveBackground.segments))
          path 3
        = (path ++ " L " ++ F64.number_toString rt 40.980000000000004%float
             ++ " "
             ++ F64.number_toString rt (wave_y (H := binary64 rt) p r t w h 3))%string)
  /\ (forall rt : F64.Runtime,
        wave_x_as_stated (H := binary64 rt) w 3 = 40.98%float)
  /\ (40.980000000000004 =? 40.98)%float = false.
Proof.
  repeat split.
Qed.

(** C3, amended.  For every time [t], width [w] and height [h], in every
    arithmetic (binary64 included), [generateWavePath] returns the closed
    path that starts at [M 0 (h+10)], then holds exactly 101 line-to
    points, [i = 0..100], the [i]-th at
    [x_i = i * (w / 100)] and
    [y_i = h - waveOffset - amplitude(x_i) * (1 + sin(phase_i + t * waveSpeed)
    + sin(phase_i * 1.5 + (t * waveSpeed) * 0.7) * 0.3) * 0.5], where
    [phase_i = (x_i / w) * pi * 2 * waveFrequency], every operation done in
    the order written, and ends with [L w (h+10) Z].  In exact arithmetic,
    for [w > 0] and a non-zero influence radius, [x_i] is [i * w / 100] and
    the points are those of the formulas however they are grouped. *)
Theorem generateWavePath_closed_path :
  (forall (N : Type) (H : Number N) (p : WaveBackground.Props N)
          (r : WaveBackground.Refs N) (t w h : N),
      let x := fun i : nat => (ofNat i * (w / lit 100))%num in
      let phase := fun i : nat =>
        ((x i / w) * Math_PI * lit 2 * WaveBackground.waveFrequency p)%num in
      let y := fun i : nat =>
        (h - WaveBackground.waveOffset p
         - WaveBackground.getAmplitudeAtX p r (x i)
           * (lit 1
              + Math_sin (phase i + t * WaveBackground.waveSpeed p)
              + Math_sin (phase i * lit 1.5
                          + t * WaveBackground.waveSpeed p * lit 0.7) * lit 0.3)
           * lit 0.5)%num in
      let point := fun i : nat =>
        (" L " ++ toString (x i) ++ " " ++ toString (y i))%string in
      WaveBackground.generateWavePath p r t w h
      = ("M 0 " ++ toString (nadd h (lit 10))
           ++ concatAll (map point (seq 0 101))
           ++ " L " ++ toString w ++ " " ++ toString (nadd h (lit 10))
           ++ " Z")%string
      /\ List.length (map point (seq 0 101)) = 101%nat
      /\ (forall i : nat, x i = wave_x w i /\ y i = wave_y p r t w h i))
  /\ (forall (str : R -> string) (p : WaveBackground.Props R)
             (r : WaveBackground.Refs R) (t w h : R) (i : nat),
        (0 < w)%R ->
        WaveBackground.mouseInfluenceRadius p <> 0%R ->
        let amplitude := WaveBackground.getAmplitudeAtX (H := exact str) p r in
        let x_i := (INR i * w / 100)%R in
        let phase_i := (x_i / w * 2 * PI * WaveBackground.waveFrequency p)%R in
        wave_x (H := exact str) w i = x_i
        /\ wave_x_as_stated (H := exact str) w i = x_i
        /\ wave_y (H := exact str) p r t w h i
           = (h - WaveBackground.waveOffset p
              - amplitude x_i
                * (1 + sin (phase_i + t * WaveBackground.waveSpeed p)
                   + 3 / 10 * sin (15 / 10 * phase_i
                                   + 7 / 10 * t * WaveBackground.waveSpeed p))
                * (5 / 10))%R).
Proof.
  split.
  - intros N H p r t w h x phase y point. split; [|split].
    + apply generateWavePath_closed.
    + now rewrite length_map, length_seq.
    + intros i. split; reflexivity.
  - intros str p r t w h i Hw _. now apply wave_points_exact.
Qed.

Lemma generateWavePath_closed_path_witness :
  let p := Examples.defaultPropsR in
  let r := Examples.refsHalfR in
  (0 < 1280)%R
  /\ WaveBackground.mouseInfluenceRadius p <> 0%R
  /\ wave_x (H := exact Examples.no_toString) 1280%R 25 = (INR 25 * 1280 / 100)%R
  /\ wave_x_as_stated (H := exact Examples.no_toString) 1280%R 25
     = (INR 25 * 1280 / 100)%R.
Proof.
  intros p r.
  assert (Hw : (0 < 1280)%R) by lra.
  assert (Hr : WaveBackground.mouseInfluenceRadius p <> 0%R).
  { unfold p. simpl. autorewrite with exact_lit. lra. }
  destruct (proj2 generateWavePath_closed_path Examples.no_toString p r
              0%R 1280%R 720%R 25%nat Hw Hr) as (Hx & Hs & _).
  repeat split; [exact Hw | exact Hr | exact Hx | exact Hs].
Defined.

(** ** The two components draw the same wave *)

Section SameWave.
Context {N : Type} `{Number N}.
Variable p1 : WaveBackground.Props N.
Variable p2 : WaveBackground2.Props N.
Variable r1 : WaveBackground.Refs N.
Variable r2 : WaveBackground2.Refs N.

Hypothesis same_max :
  WaveBackground.maxAmplitude p1 = WaveBackground2.maxAmplitude p2.
Hypothesis same_base :
  WaveBackground.baseAmplitude p1 = WaveBackground2.baseAmplitude p2.
Hypothesis same_radius :
  WaveBackground.mouseInfluenceRadius p1 = WaveBackground2.mouseInfluenceRadius p2.
Hypothesis same_mouse :
  WaveBackground.smoothMouseX r1 = WaveBackground2.smoothMouseX r2.
Hypothesis same_influence :
  WaveBackground.mouseInfluence r1 = WaveBackground2.mouseInfluence r2.

Lemma getAmplitudeAtX_same (x : N) :
  WaveBackground.getAmplitudeAtX p1 r1 x = WaveBackground2.getAmplitudeAtX p2 r2 x.
Proof.
  unfold WaveBackground.getAmplitudeAtX, WaveBackground2.getAmplitudeAtX.
  now rewrite same_max, same_base, same_radius, same_mouse, same_influence.
Qed.

Hypothesis same_speed :
  WaveBackground.waveSpeed p1 = WaveBackground2.waveSpeed p2.
Hypothesis same_frequency :
  WaveBackground.waveFrequency p1 = WaveBackground2.waveFrequency p2.
Hypothesis same_offset :
  WaveBackground.waveOffset p1 = WaveBackground2.waveOffset p2.

Lemma waveStep_same (t w h sw : N) (path : string) (i : nat) :
  WaveBackground.waveStep p1 r1 t w h sw path i
  = WaveBackground2.waveStep p2 r2 t w h sw path i.
Proof.
  unfold WaveBackground.waveStep, WaveBackground2.waveStep.
  now rewrite getAmplitudeAtX_same, same_speed, same_frequency, same_offset.
Qed.

Lemma wave_loop_same (t w h sw : N) (l : list nat) (path : string) :
  fold_left (WaveBackground.waveStep p1 r1 t w h sw) l path
  = fold_left (WaveBackground2.waveStep p2 r2 t w h sw) l path.
Proof.
  revert path. induction l as [|i l IH]; intros path; simpl;
    [reflexivity | now rewrite waveStep_same, IH].
Qed.

End SameWave.

(** C10.  Given the same [maxAmplitude], [baseAmplitude], [waveSpeed],
    [waveFrequency], [mouseInfluenceRadius] and [waveOffset], the same
    smoothed mouse x and influence factor, and the same time, width and
    height, [generateWavePath] of the first component and of the second
    return the same path string (in every arithmetic, binary64 included). *)
Theorem generateWavePath_same_in_both
    (N : Type) (H : Number N)
    (p1 : WaveBackground.Props N) (p2 : WaveBackground2.Props N)
    (r1 : WaveBackground.Refs N) (r2 : WaveBackground2.Refs N)
    (t w h : N) :
  WaveBackground.maxAmplitude p1 = WaveBackground2.maxAmplitude p2 ->
  WaveBackground.baseAmplitude p1 = WaveBackground2.baseAmplitude p2 ->
  WaveBackground.waveSpeed p1 = WaveBackground2.waveSpeed p2 ->
  WaveBackground.waveFrequency p1 = WaveBackground2.waveFrequency p2 ->
  WaveBackground.mouseInfluenceRadius p1 = WaveBackground2.mouseInfluenceRadius p2 ->
  WaveBackground.waveOffset p1 = WaveBackground2.waveOffset p2 ->
  WaveBackground.smoothMouseX r1 = WaveBackground2.smoothMouseX r2 ->
  WaveBackground.mouseInfluence r1 = WaveBackground2.mouseInfluence r2 ->
  WaveBackground.generateWavePath p1 r1 t w h
  = WaveBackground2.generateWavePath p2 r2 t w h.
Proof.
  intros Hmax Hbase Hspeed Hfreq Hrad Hoff Hmouse Hinfl.
  unfold WaveBackground.generateWavePath, WaveBackground2.generateWavePath.
  cbv zeta.
  now rewrite (wave_loop_same p1 p2 r1 r2 Hmax Hbase Hrad Hmouse Hinfl
                 Hspeed Hfreq Hoff).
Qed.

Lemma generateWavePath_same_in_both_witness :
  WaveBackground.generateWavePath (H := binary64 Examples.sample_runtime)
    Examples.defaultProps Examples.refsHalf 0%float 1280%float 720%float
  = WaveBackground2.generateWavePath (H := binary64 Examples.sample_runtime)
      Examples.defaultProps2 Examples.refsHalf2 0%float 1280%float 720%float.
Proof.
  apply (generateWavePath_same_in_both float (binary64 Examples.sample_runtime)
           Examples.defaultProps Examples.defaultProps2
           Examples.refsHalf Examples.refsHalf2);
    reflexivity.
Defined.

(** ** The scroll blur *)

Section ScrollBlurFacts.
Import ScrollBlur.
Context {N : Type} `{Number N}.
Local Open Scope num_scope.

Lemma scrollCallback_mounted (n : Node) (vh : N) (d : Document N) :
  exists d' : Document N,
    scrollCallback (Some n) vh d = Returned d'
    /\ style_filter (d' n) = filterOf (bounding_top (d n)) vh
    /\ style_textShadow (d' n) = textShadowOf (bounding_top (d n)) vh
    /\ bounding_top (d' n) = bounding_top (d n)
    /\ forall m, m <> n -> d' m = d m.
Proof.
  unfold scrollCallback, filterOf, textShadowOf. simpl.
  fold (progressOf (bounding_top (d n)) vh).
  destruct (progressOf (bounding_top (d n)) vh >? lit 0);
    eexists; (split; [reflexivity|]);
    unfold set_textShadow, set_filter; rewrite ?Nat.eqb_refl; simpl;
    repeat split; intros m Hm;
    apply Nat.eqb_neq in Hm; now rewrite Hm.
Qed.

End ScrollBlurFacts.

(** C2.  The blur and glow are a function of the geometry: two runs of the
    scroll callback on elements with the same [rect.top], under the same
    viewport height, leave the same [filter] string and the same
    [text-shadow] string, whatever the two documents held before (earlier
    runs included). *)
Theorem scrollCallback_geometry_only
    (N : Type) (H : Number N) (n1 n2 : ScrollBlur.Node)
    (d1 d2 : ScrollBlur.Document N) (innerHeight : N) :
  ScrollBlur.bounding_top (d1 n1) = ScrollBlur.bounding_top (d2 n2) ->
  exists d1' d2' : ScrollBlur.Document N,
    ScrollBlur.scrollCallback (Some n1) innerHeight d1 = ScrollBlur.Returned d1'
    /\ ScrollBlur.scrollCallback (Some n2) innerHeight d2 = ScrollBlur.Returned d2'
    /\ ScrollBlur.style_filter (d1' n1) = ScrollBlur.style_filter (d2' n2)
    /\ ScrollBlur.style_textShadow (d1' n1) = ScrollBlur.style_textShadow (d2' n2).
Proof.
  intros Htop.
  destruct (scrollCallback_mounted n1 innerHeight d1) as (d1' & R1 & F1 & S1 & _).
  destruct (scrollCallback_mounted n2 innerHeight d2) as (d2' & R2 & F2 & S2 & _).
  exists d1', d2'. repeat split; try assumption.
  - now rewrite F1, F2, Htop.
  - now rewrite S1, S2, Htop.
Qed.

Lemma scrollCallback_geometry_only_witness :
  exists d1' d2' : ScrollBlur.Document float,
    ScrollBlur.scrollCallback (H := binary64 Examples.sample_runtime)
      (Some 0%nat) 768%float Examples.docFresh = ScrollBlur.Returned d1'
    /\ ScrollBlur.scrollCallback (H := binary64 Examples.sample_runtime)
         (Some 3%nat) 768%float Examples.docBlurred = ScrollBlur.Returned d2'
    /\ ScrollBlur.style_filter (d1' 0%nat) = ScrollBlur.style_filter (d2' 3%nat)
    /\ ScrollBlur.style_textShadow (d1' 0%nat)
       = ScrollBlur.style_textShadow (d2' 3%nat).
Proof.
  apply (scrollCallback_geometry_only float (binary64 Examples.sample_runtime)
           0%nat 3%nat Examples.docFresh Examples.docBlurred 768%float).
  reflexivity.
Defined.

(** C5.  With a [null] reference the scroll callback returns at once and
    leaves the document as it was: no element's [filter] or [text-shadow]
    changes.  No run of the callback throws, with or without element. *)
Theorem scrollCallback_null_ref
    (N : Type) (H : Number N) (innerHeight : N) (d : ScrollBlur.Document N) :
  ScrollBlur.scrollCallback None innerHeight d = ScrollBlur.Returned d
  /\ (forall current : option ScrollBlur.Node,
        exists d' : ScrollBlur.Document N,
          ScrollBlur.scrollCallback current innerHeight d = ScrollBlur.Returned d').
Proof.
  split; [reflexivity|].
  intros [n|].
  - destruct (scrollCallback_mounted n innerHeight d) as (d' & R & _).
    now exists d'.
  - now exists d.
Qed.

(** ** The language toggle *)

(** C6.  The toggle maps "br" to "en" and every other language to "br";
    so from "br" or "en", toggling twice gives back the preferences one
    started from. *)
Theorem toggleLang_involution (u : NavMenu.UserPreferences) :
  (NavMenu.lang u = "br"%string -> NavMenu.lang (NavMenu.toggleLang u) = "en"%string)
  /\ (NavMenu.lang u <> "br"%string -> NavMenu.lang (NavMenu.toggleLang u) = "br"%string)
  /\ (NavMenu.lang u = "br"%string \/ NavMenu.lang u = "en"%string ->
      NavMenu.toggleLang (NavMenu.toggleLang u) = u).
Proof.
  destruct u as [l m]. unfold NavMenu.toggleLang, NavMenu.setLang. simpl.
  repeat split.
  - intros ->. reflexivity.
  - intros Hl. apply String.eqb_neq in Hl. now rewrite Hl.
  - intros [-> | ->]; reflexivity.
Qed.

Lemma toggleLang_involution_witness :
  NavMenu.lang (NavMenu.toggleLang Examples.prefsBr) = "en"%string
  /\ NavMenu.lang (NavMenu.toggleLang Examples.prefsEn) = "br"%string
  /\ NavMenu.toggleLang (NavMenu.toggleLang Examples.prefsEn) = Examples.prefsEn.
Proof.
  split; [|split].
  - apply (proj1 (toggleLang_involution Examples.prefsBr)). reflexivity.
  - apply (proj1 (proj2 (toggleLang_involution Examples.prefsEn))). discriminate.
  - apply (proj2 (proj2 (toggleLang_involution Examples.prefsEn))).
    right. reflexivity.
Defined.

(** ** The project list *)

Lemma mapCards_payload (lang : string) (ps : list Projects.Project) (i : nat) :
  map Projects.card_p (Projects.mapCards lang i ps) = ps.
Proof.
  revert i. induction ps as [|q ps IH]; intros i; simpl;
    [reflexivity | now rewrite IH].
Qed.


(** C7.  The list rendered is chosen by the language alone: the English
    list when the language is "en", the Portuguese list for every other
    value; and a render leaves both lists as they were. *)
Theorem projects_selected_by_lang (lang : string) (c : Projects.Content) :
  (lang = "en"%string -> Projects.projects lang c = Projects.projectsEn c)
  /\ (lang <> "en"%string -> Projects.projects lang c = Projects.projectsBr c)
  /\ map Projects.card_p (snd (fst (Projects.render lang c)))
     = Projects.projects lang c
  /\ snd (Projects.render lang c) = c.
Proof.
  unfold Projects.render, Projects.projects. simpl. repeat split.
  - intros ->. reflexivity.
  - intros Hl. apply String.eqb_neq in Hl. now rewrite Hl.
  - apply mapCards_payload.
Qed.

Lemma projects_selected_by_lang_witness :
  Projects.projects "en" Examples.sampleContent
  = Projects.projectsEn Examples.sampleContent
  /\ Projects.projects "br" Examples.sampleContent
     = Projects.projectsBr Examples.sampleContent.
Proof.
  split.
  - apply (proj1 (projects_selected_by_lang "en" Examples.sampleContent)).
    reflexivity.
  - apply (proj1 (proj2 (projects_selected_by_lang "br" Examples.sampleContent))).
    discriminate.
Defined.




(** ** Further facts and sample runs *)

(** With a zero influence radius the sample at the wave centre divides 0 by
    0: the amplitude is NaN in binary64 (given [Math.exp(NaN) = NaN]). *)
Remark getAmplitudeAtX_zero_radius_nan (rt : F64.Runtime) :
  F64.exp rt nan = nan ->
  is_nan (WaveBackground.getAmplitudeAtX (H := binary64 rt)
            Examples.propsZeroRadius Examples.refsFull 640%float) = true.
Proof.
  intros He. rewrite getAmplitudeAtX_unfold.
  change (WaveBackground.mouseInfluence Examples.refsFull <=? 0.01)%float
    with false.
  cbv zeta. change (F64.min _ _) with nan.
  change (- nan * nan * 3)%float with nan.
  rewrite He. vm_compute. reflexivity.
Qed.

(** In a container of zero width with the mouse on its edge, the gradient
    target is 0/0 and the gradient position becomes NaN in binary64. *)
Remark smoothGradientX_zero_width_nan (rt : F64.Runtime) :
  is_nan (WaveBackground.smoothGradientX
            (WaveBackground.animateRefs (H := binary64 rt)
               Examples.defaultProps Examples.dimensionsZero Examples.refsZero))
  = true.
Proof. vm_compute. reflexivity. Qed.

(** The positions set at mount are inside the gradient range, in exact
    arithmetic. *)
Lemma initPositions_in_range_exact
    (str : R -> string) (p : WaveBackground.Props R)
    (r : WaveBackground.Refs R) (w : R) :
  (0 <= w)%R ->
  (WaveBackground.gradientRangeStart p <= WaveBackground.gradientRangeEnd p)%R ->
  inGradientRange p w
    (WaveBackground.smoothGradientX
       (WaveBackground.initPositions (H := exact str) p (Some w) r)).
Proof.
  unfold inGradientRange. simpl. autorewrite with exact_lit.
  intros Hw Hse. split; nra.
Qed.

(** The influence factor stays in [0, 1] under a frame, in exact
    arithmetic. *)
Lemma mouseInfluence_in_unit_exact
    (str : R -> string) (p : WaveBackground.Props R)
    (dimensions : WaveBackground.Dimensions R) (r : WaveBackground.Refs R) :
  (0 <= WaveBackground.mouseInfluence r <= 1)%R ->
  (0 <= WaveBackground.mouseInfluence
          (WaveBackground.animateRefs (H := exact str) p dimensions r) <= 1)%R.
Proof.
  intros Hm. unfold WaveBackground.animateRefs, WaveBackground.influenceFadeSpeed.
  destruct (WaveBackground.targetMouseX r); simpl;
    autorewrite with exact_lit; lra.
Qed.

(** The mouse listener leaves either [null] or an offset from the left edge
    of the container. *)
Lemma handleMouseMove_target (N : Type) (H : Number N)
    (rect : WaveBackground.DOMRect N) (e : WaveBackground.MouseEvent N)
    (r : WaveBackground.Refs N) (mx : N) :
  WaveBackground.targetMouseX (WaveBackground.handleMouseMove (Some rect) e r)
  = Some mx ->
  mx = nsub (WaveBackground.clientX e) (WaveBackground.rect_left rect)
  /\ nge (WaveBackground.clientX e) (WaveBackground.rect_left rect) = true
  /\ nle (WaveBackground.clientX e) (WaveBackground.rect_right rect) = true.
Proof.
  unfold WaveBackground.handleMouseMove, WaveBackground.setTarget. simpl.
  destruct (nge (WaveBackground.clientX e) (WaveBackground.rect_left rect));
    destruct (nle (WaveBackground.clientX e) (WaveBackground.rect_right rect));
    simpl; try discriminate.
  destruct (_ && _); [|discriminate].
  intros E. injection E as <-. now repeat split.
Qed.

(** Sample runs of the scroll callback in binary64: an element at the
    bottom of a viewport 768 high gets the full blur, one at the top gets
    none. *)
Example scrollCallback_bottom (rt : F64.Runtime) :
  exists d' : ScrollBlur.Document float,
    ScrollBlur.scrollCallback (H := binary64 rt) (Some 0%nat) 768%float
      (fun _ => {| ScrollBlur.bounding_top := 768%float;
                   ScrollBlur.style_filter := "";
                   ScrollBlur.style_textShadow := "" |})
    = ScrollBlur.Returned d'
    /\ ScrollBlur.style_filter (d' 0%nat)
       = ("blur(" ++ F64.number_toString rt 6 ++ "px)")%string
    /\ ScrollBlur.style_textShadow (d' 0%nat)
       = ("0 0 " ++ F64.number_toString rt 18 ++ "px rgb(var(--primary) / "
            ++ F64.number_toString rt 0.5 ++ ")")%string.
Proof. eexists. split; [reflexivity|]. split; reflexivity. Qed.

Example scrollCallback_top (rt : F64.Runtime) :
  exists d' : ScrollBlur.Document float,
    ScrollBlur.scrollCallback (H := binary64 rt) (Some 0%nat) 768%float
      (fun _ => {| ScrollBlur.bounding_top := 100%float;
                   ScrollBlur.style_filter := "blur(6px)";
                   ScrollBlur.style_textShadow := "" |})
    = ScrollBlur.Returned d'
    /\ ScrollBlur.style_filter (d' 0%nat) = "none"%string
    /\ ScrollBlur.style_textShadow (d' 0%nat) = "none"%string.
Proof. eexists. split; [reflexivity|]. split; reflexivity. Qed.

(** The default wave with the mouse away, at time 0 in a 100 by 50 box:
    the path begins at the bottom-left corner and its first point is at
    x = 0, y = 50 - 50 - 8 * (1 + 0 + 0) * 0.5 = -4. *)
Example generateWavePath_starts (rt : F64.Runtime) :
  F64.sin rt 0 = 0%float ->
  exists rest : string,
    WaveBackground.generateWavePath (H := binary64 rt)
      Examples.defaultProps Examples.refsIdle 0%float 100%float 50%float
    = ("M 0 " ++ F64.number_toString rt 60
         ++ " L " ++ F64.number_toString rt 0 ++ " " ++ F64.number_toString rt (-4)
         ++ rest)%string.
Proof.
  intros Hs. rewrite generateWavePath_closed. unfold closedWavePath.
  change (seq 0 101) with (0%nat :: seq 1 100).
  unfold concatAll. cbn [map fold_right]. unfold lineTo at 1.
  assert (Ex : wave_x (H := binary64 rt) 100%float 0 = 0%float)
    by (vm_compute; reflexivity).
  assert (Ey : wave_y (H := binary64 rt) Examples.defaultProps Examples.refsIdle
                 0%float 100%float 50%float 0 = (-4)%float).
  { unfold wave_y, wave_phase. rewrite Ex. simpl.
    change (0 / 100 * F64.PI * F64.of_Q 2 * 2)%float with 0%float.
    change (0 * 0.001)%float with 0%float.
    change (0 + 0)%float with 0%float.
    change (0 * F64.of_Q 1.5 + 0 * F64.of_Q 0.7)%float with 0%float.
    rewrite Hs. vm_compute. reflexivity. }
  rewrite Ex, Ey. rewrite !append_assoc.
  change (@toString float (binary64 rt) (50%float + lit 10)%num)
    with (F64.number_toString rt 60).
  change (@toString float (binary64 rt) 0%float) with (F64.number_toString rt 0).
  change (@toString float (binary64 rt) (-4)%float)
    with (F64.number_toString rt (-4)).
  eexists. reflexivity.
Qed.

(* ------------------------------------------------------------------ *)
(** ** The mouse listener *)

Lemma Exact_le_true (a b : R) : Exact.le a b = true <-> (a <= b)%R.
Proof.
  unfold Exact.le. destruct (Rle_dec a b) as [L|L]; split; intros X;
    try reflexivity; try assumption; [discriminate | contradiction].
Qed.

Lemma Exact_ge_true (a b : R) : Exact.ge a b = true <-> (a >= b)%R.
Proof.
  unfold Exact.ge. destruct (Rge_dec a b) as [L|L]; split; intros X;
    try reflexivity; try assumption; [discriminate | contradiction].
Qed.

Lemma Exact_gt_true (a b : R) : Exact.gt a b = true <-> (a > b)%R.
Proof.
  unfold Exact.gt. destruct (Rgt_dec a b) as [L|L]; split; intros X;
    try reflexivity; try assumption; [discriminate | contradiction].
Qed.

(** The test of [handleMouseMove], in exact arithmetic. *)
Lemma inside_test_exact (rect : WaveBackground.DOMRect R)
    (e : WaveBackground.MouseEvent R) :
  (Exact.ge (WaveBackground.clientX e) (WaveBackground.rect_left rect)
   && Exact.le (WaveBackground.clientX e) (WaveBackground.rect_right rect)
   && Exact.ge (WaveBackground.clientY e) (WaveBackground.rect_top rect)
   && Exact.le (WaveBackground.clientY e) (WaveBackground.rect_bottom rect))%bool
  = true
  <-> insideRect rect e.
Proof.
  unfold insideRect. rewrite !andb_true_iff, !Exact_le_true, !Exact_ge_true.
  split; intros; repeat split; try lra; tauto.
Qed.

Lemma handleMouseMove_cases (str : R -> string)
    (rect : WaveBackground.DOMRect R) (e : WaveBackground.MouseEvent R)
    (r : WaveBackground.Refs R) :
  (insideRect rect e
   /\ WaveBackground.handleMouseMove (H := exact str) (Some rect) e r
      = WaveBackground.setTarget
          (Some (WaveBackground.clientX e - WaveBackground.rect_left rect)%R) r)
  \/ (~ insideRect rect e
      /\ WaveBackground.handleMouseMove (H := exact str) (Some rect) e r
         = WaveBackground.setTarget None r).
Proof.
  unfold WaveBackground.handleMouseMove. simpl.
  destruct (_ && _ && _ && _)%bool eqn:E.
  - left. split; [now apply inside_test_exact | reflexivity].
  - right. split; [|reflexivity].
    intros Hin. apply inside_test_exact in Hin. congruence.
Qed.

(** X1.  In exact arithmetic, a mousemove over a mounted container leaves
    in [targetMouseX] the offset of the pointer from the left edge, between
    0 and the width of the rectangle, when the pointer is over the
    rectangle (borders included), and [null] otherwise; the three smoothed
    refs are not touched. *)
Theorem handleMouseMove_offset_exact (str : R -> string)
    (rect : WaveBackground.DOMRect R) (e : WaveBackground.MouseEvent R)
    (r : WaveBackground.Refs R) :
  let r' := WaveBackground.handleMouseMove (H := exact str) (Some rect) e r in
  match WaveBackground.targetMouseX r' with
  | Some mx =>
      insideRect rect e
      /\ mx = (WaveBackground.clientX e - WaveBackground.rect_left rect)%R
      /\ (0 <= mx <= WaveBackground.rect_right rect
                     - WaveBackground.rect_left rect)%R
  | None => ~ insideRect rect e
  end
  /\ WaveBackground.smoothMouseX r' = WaveBackground.smoothMouseX r
  /\ WaveBackground.smoothGradientX r' = WaveBackground.smoothGradientX r
  /\ WaveBackground.mouseInfluence r' = WaveBackground.mouseInfluence r.
Proof.
  intros r'. subst r'.
  destruct (handleMouseMove_cases str rect e r) as [[Hin ->] | [Hout ->]]; simpl.
  - split; [|now repeat split].
    split; [exact Hin|]. split; [reflexivity|].
    destruct Hin as [Hx _]. lra.
  - split; [exact Hout|now repeat split].
Qed.

(* ------------------------------------------------------------------ *)
(** ** Whole runs of the first component, in exact arithmetic *)

Lemma run_snoc (N : Type) (H : Number N)
    (p : WaveBackground.Props N) (c : option (WaveBackground.DOMRect N))
    (dimensions : WaveBackground.Dimensions N)
    (events : list (WaveBackground.Event N)) (ev : WaveBackground.Event N)
    (s : WaveBackground.Refs N * WaveBackground.Dom) :
  WaveBackground.run p c dimensions (ev :: events) s
  = WaveBackground.run p c dimensions events
      (WaveBackground.dispatch p c dimensions ev s).
Proof. reflexivity. Qed.

(** A frame does not touch the raw mouse position. *)
Lemma animateRefs_keeps_target (N : Type) (H : Number N)
    (p : WaveBackground.Props N) (dimensions : WaveBackground.Dimensions N)
    (r : WaveBackground.Refs N) :
  WaveBackground.targetMouseX (WaveBackground.animateRefs p dimensions r)
  = WaveBackground.targetMouseX r.
Proof.
  unfold WaveBackground.animateRefs.
  now destruct (WaveBackground.targetMouseX r).
Qed.

Section RunExact.
Variable str : R -> string.
Variable p : WaveBackground.Props R.
Variable dimensions : WaveBackground.Dimensions R.

(** An event keeps the influence factor in [0, 1]. *)
Lemma dispatch_influence_unit (c : option (WaveBackground.DOMRect R))
    (ev : WaveBackground.Event R)
    (s : WaveBackground.Refs R * WaveBackground.Dom) :
  (0 <= WaveBackground.mouseInfluence (fst s) <= 1)%R ->
  (0 <= WaveBackground.mouseInfluence
          (fst (WaveBackground.dispatch (H := exact str) p c dimensions ev s))
   <= 1)%R.
Proof.
  intros Hm. destruct ev as [e|time];
    unfold WaveBackground.dispatch; cbn [fst snd].
  - destruct c as [rect|]; [|exact Hm].
    destruct (handleMouseMove_cases str rect e (fst s)) as [[_ ->] | [_ ->]];
      exact Hm.
  - now apply mouseInfluence_in_unit_exact.
Qed.

Lemma run_influence_unit (c : option (WaveBackground.DOMRect R))
    (events : list (WaveBackground.Event R))
    (s : WaveBackground.Refs R * WaveBackground.Dom) :
  (0 <= WaveBackground.mouseInfluence (fst s) <= 1)%R ->
  (0 <= WaveBackground.mouseInfluence
          (fst (WaveBackground.run (H := exact str) p c dimensions events s))
   <= 1)%R.
Proof.
  revert s. induction events as [|ev events IH]; intros s Hm.
  - exact Hm.
  - rewrite run_snoc. apply IH. now apply dispatch_influence_unit.
Qed.

(** The amplitude lies between the base and the maximum whenever the
    influence factor is in [0, 1]. *)
Lemma amplitude_between_exact (r : WaveBackground.Refs R) (x : R) :
  (WaveBackground.baseAmplitude p <= WaveBackground.maxAmplitude p)%R ->
  (0 <= WaveBackground.mouseInfluence r <= 1)%R ->
  (WaveBackground.baseAmplitude p
   <= WaveBackground.getAmplitudeAtX (H := exact str) p r x
   <= WaveBackground.maxAmplitude p)%R.
Proof.
  intros Hbm Hm. unfold WaveBackground.getAmplitudeAtX. simpl.
  autorewrite with exact_lit. unfold Exact.le.
  destruct (Rle_dec _ _) as [_|_]; [lra|].
  set (d := Rmin _ _).
  pose proof (falloff_bounds d) as [He0 He1].
  set (e := exp _) in *.
  set (b := WaveBackground.baseAmplitude p) in *.
  set (M := WaveBackground.maxAmplitude p) in *.
  set (m := WaveBackground.mouseInfluence r) in *.
  replace (b + (M - b) * e - b)%R with ((M - b) * e)%R by ring.
  assert (Ht : (0 <= (M - b) * e <= M - b)%R) by nra.
  set (t := ((M - b) * e)%R) in *.
  assert (H0 : (0 <= t * m)%R) by (apply Rmult_le_pos; lra).
  assert (H1 : (0 <= t * (1 - m))%R) by (apply Rmult_le_pos; lra).
  lra.
Qed.

Hypothesis width_pos : (0 < WaveBackground.width dimensions)%R.
Hypothesis range_ordered :
  (WaveBackground.gradientRangeStart p <= WaveBackground.gradientRangeEnd p)%R.
Hypothesis speed_unit : (0 <= WaveBackground.gradientLerpSpeed p <= 1)%R.
Variable rect : WaveBackground.DOMRect R.
Hypothesis rect_width :
  (WaveBackground.rect_right rect - WaveBackground.rect_left rect
   = WaveBackground.width dimensions)%R.

Lemma mounted_withinLayout :
  withinLayout p dimensions (WaveBackground.mountedRefs (H := exact str) p
                  (WaveBackground.width dimensions)).
Proof.
  split.
  - simpl. discriminate.
  - apply initPositions_in_range_exact; [lra | exact range_ordered].
Qed.

Lemma dispatch_withinLayout (ev : WaveBackground.Event R)
    (s : WaveBackground.Refs R * WaveBackground.Dom) :
  withinLayout p dimensions (fst s) ->
  withinLayout p dimensions (fst (WaveBackground.dispatch (H := exact str) p (Some rect)
                       dimensions ev s)).
Proof.
  intros [Ht Hg]. destruct ev as [e|time];
    unfold WaveBackground.dispatch; cbn [fst snd].
  - destruct (handleMouseMove_cases str rect e (fst s)) as [[Hin ->] | [_ ->]];
      split; simpl; try exact Hg.
    + intros mx E. injection E as <-. destruct Hin as [Hx _].
      rewrite <- rect_width. lra.
    + discriminate.
  - split.
    + intros mx E. apply Ht.
      unfold WaveBackground.animate in E. cbn [fst] in E.
      now rewrite animateRefs_keeps_target in E.
    + now apply animateRefs_gradient_in_range_exact.
Qed.

Lemma run_withinLayout (events : list (WaveBackground.Event R))
    (s : WaveBackground.Refs R * WaveBackground.Dom) :
  withinLayout p dimensions (fst s) ->
  withinLayout p dimensions (fst (WaveBackground.run (H := exact str) p (Some rect)
                       dimensions events s)).
Proof.
  revert s. induction events as [|ev events IH]; intros s Hs.
  - exact Hs.
  - rewrite run_snoc. apply IH. now apply dispatch_withinLayout.
Qed.

End RunExact.

(** X2.  In exact arithmetic, for a container of positive width whose
    bounding rectangle is as wide as [dimensions.width], with
    [gradientRangeStart <= gradientRangeEnd] and [gradientLerpSpeed] in
    [0, 1]: from the mount on, after any sequence of mousemove events and
    animation frames, [smoothGradientX] lies in
    [[gradientRangeStart * width, gradientRangeEnd * width]].  The mouse
    listener and the mount effect provide what the frame needs. *)
Theorem run_gradient_in_range_exact
    (str : R -> string) (p : WaveBackground.Props R)
    (dimensions : WaveBackground.Dimensions R)
    (rect : WaveBackground.DOMRect R)
    (events : list (WaveBackground.Event R)) (dom : WaveBackground.Dom) :
  (0 < WaveBackground.width dimensions)%R ->
  (WaveBackground.gradientRangeStart p <= WaveBackground.gradientRangeEnd p)%R ->
  (0 <= WaveBackground.gradientLerpSpeed p <= 1)%R ->
  (WaveBackground.rect_right rect - WaveBackground.rect_left rect
   = WaveBackground.width dimensions)%R ->
  inGradientRange p (WaveBackground.width dimensions)
    (WaveBackground.smoothGradientX
       (fst (WaveBackground.run (H := exact str) p (Some rect) dimensions events
               (WaveBackground.mountedRefs (H := exact str) p
                  (WaveBackground.width dimensions), dom)))).
Proof.
  intros Hw Hse Hk Hrect.
  apply (run_withinLayout str p dimensions Hw Hse Hk rect Hrect events).
  simpl. now apply mounted_withinLayout.
Qed.

Lemma run_gradient_in_range_exact_witness :
  inGradientRange Examples.defaultPropsR 1280
    (WaveBackground.smoothGradientX
       (fst (WaveBackground.run (H := exact Examples.no_toString)
               Examples.defaultPropsR (Some Examples.rectR)
               Examples.dimensionsR Examples.eventsR
               (WaveBackground.mountedRefs (H := exact Examples.no_toString)
                  Examples.defaultPropsR 1280%R, Examples.domEmpty)))).
Proof.
  apply (run_gradient_in_range_exact Examples.no_toString
           Examples.defaultPropsR Examples.dimensionsR Examples.rectR
           Examples.eventsR Examples.domEmpty); simpl; lra.
Defined.

(** X3.  In exact arithmetic, with [baseAmplitude <= maxAmplitude] and a
    non-zero influence radius: from the mount on, after any sequence of
    mousemove events and animation frames, mounted or not, the influence
    factor is in [0, 1] and the amplitude of every sample lies in
    [[baseAmplitude, maxAmplitude]]. *)
Theorem run_amplitude_in_range_exact
    (str : R -> string) (p : WaveBackground.Props R)
    (dimensions : WaveBackground.Dimensions R)
    (containerRef : option (WaveBackground.DOMRect R))
    (offsetWidth : R)
    (events : list (WaveBackground.Event R)) (dom : WaveBackground.Dom) (x : R) :
  (WaveBackground.mouseInfluenceRadius p <> 0)%R ->
  (WaveBackground.baseAmplitude p <= WaveBackground.maxAmplitude p)%R ->
  let r := fst (WaveBackground.run (H := exact str) p containerRef dimensions
                  events
                  (WaveBackground.mountedRefs (H := exact str) p offsetWidth,
                   dom)) in
  (0 <= WaveBackground.mouseInfluence r <= 1)%R
  /\ (WaveBackground.baseAmplitude p
      <= WaveBackground.getAmplitudeAtX (H := exact str) p r x
      <= WaveBackground.maxAmplitude p)%R.
Proof.
  intros _ Hbm r.
  assert (Hm : (0 <= WaveBackground.mouseInfluence r <= 1)%R).
  { apply run_influence_unit. simpl. autorewrite with exact_lit. lra. }
  split; [exact Hm | now apply amplitude_between_exact].
Qed.

Lemma run_amplitude_in_range_exact_witness :
  (8 <= WaveBackground.getAmplitudeAtX (H := exact Examples.no_toString)
          Examples.defaultPropsR
          (fst (WaveBackground.run (H := exact Examples.no_toString)
                  Examples.defaultPropsR (Some Examples.rectR)
                  Examples.dimensionsR Examples.eventsR
                  (WaveBackground.mountedRefs (H := exact Examples.no_toString)
                     Examples.defaultPropsR 1280%R, Examples.domEmpty)))
          500%R
   <= 30)%R.
Proof.
  apply (run_amplitude_in_range_exact Examples.no_toString
           Examples.defaultPropsR Examples.dimensionsR (Some Examples.rectR)
           1280%R Examples.eventsR Examples.domEmpty 500%R); simpl; lra.
Defined.

(* ------------------------------------------------------------------ *)
(** ** The smoothing of a frame, in exact arithmetic *)

Lemma frames_cons (N : Type) (H : Number N)
    (p : WaveBackground.Props N) (dimensions : WaveBackground.Dimensions N)
    (target : option N) (time : N) (inputs : list (option N * N))
    (s : WaveBackground.Refs N * WaveBackground.Dom) :
  WaveBackground.frames p dimensions ((target, time) :: inputs) s
  = WaveBackground.frames p dimensions inputs
      (WaveBackground.animate p dimensions time
         (WaveBackground.setTarget target (fst s), snd s)).
Proof. reflexivity. Qed.

(** X4.  In exact arithmetic, in a container of positive width, after
    [n] frames with the mouse held at [t]: the influence factor is
    [1 - (1 - m0) * 0.95^n], the smoothed mouse x is
    [t + (x0 - t) * (1 - mouseLerpSpeed)^n], and the gradient is
    [T + (g0 - T) * (1 - gradientLerpSpeed)^n], where [m0], [x0], [g0] are
    the values before the frames and [T] is the point of the gradient range
    the mouse maps to.  Each smoothed value closes in on its target
    geometrically. *)
Theorem frames_mouse_held_exact
    (str : R -> string) (p : WaveBackground.Props R)
    (dimensions : WaveBackground.Dimensions R) (t : R)
    (inputs : list (option R * R))
    (s : WaveBackground.Refs R * WaveBackground.Dom) :
  (0 < WaveBackground.width dimensions)%R ->
  Forall (fun input => fst input = Some t) inputs ->
  let n := List.length inputs in
  let r := fst (WaveBackground.frames (H := exact str) p dimensions inputs s) in
  let T := gradientTarget p (WaveBackground.width dimensions) t in
  WaveBackground.mouseInfluence r
  = (1 - (1 - WaveBackground.mouseInfluence (fst s)) * (95 / 100) ^ n)%R
  /\ WaveBackground.smoothMouseX r
     = (t + (WaveBackground.smoothMouseX (fst s) - t)
            * (1 - WaveBackground.mouseLerpSpeed p) ^ n)%R
  /\ WaveBackground.smoothGradientX r
     = (T + (WaveBackground.smoothGradientX (fst s) - T)
            * (1 - WaveBackground.gradientLerpSpeed p) ^ n)%R.
Proof.
  intros _ Hin. revert s.
  induction Hin as [|[target time] inputs Ht _ IH]; intros s; cbv zeta.
  - simpl. repeat split; ring.
  - simpl in Ht. subst target. rewrite frames_cons.
    destruct (IH (WaveBackground.animate (H := exact str) p dimensions time
                    (WaveBackground.setTarget (Some t) (fst s), snd s)))
      as (Em & Ex & Eg).
    rewrite Em, Ex, Eg. clear Em Ex Eg IH.
    unfold WaveBackground.animate, WaveBackground.animateRefs,
      WaveBackground.influenceFadeSpeed, gradientTarget.
    simpl. autorewrite with exact_lit.
    split; [field | split; ring].
Qed.

Lemma frames_mouse_held_exact_witness :
  let r :=
    fst (WaveBackground.frames (H := exact Examples.no_toString)
           Examples.defaultPropsR Examples.dimensionsR
           [(Some 400%R, 16%R); (Some 400%R, 33%R)]
           (Examples.refsIdleR, Examples.domEmpty)) in
  let T := gradientTarget Examples.defaultPropsR 1280%R 400%R in
  WaveBackground.mouseInfluence r = (1 - (1 - 0) * (95 / 100) ^ 2)%R
  /\ WaveBackground.smoothGradientX r
     = (T + (WaveBackground.smoothGradientX Examples.refsIdleR - T)
            * (1 - WaveBackground.gradientLerpSpeed Examples.defaultPropsR) ^ 2)%R.
Proof.
  assert (Hw : (0 < WaveBackground.width Examples.dimensionsR)%R)
    by (simpl; lra).
  assert (Hin : Forall (fun input : option R * R => fst input = Some 400%R)
                       [(Some 400%R, 16%R); (Some 400%R, 33%R)]).
  { repeat (apply Forall_cons; [reflexivity|]). apply Forall_nil. }
  destruct (frames_mouse_held_exact Examples.no_toString Examples.defaultPropsR
              Examples.dimensionsR 400%R
              [(Some 400%R, 16%R); (Some 400%R, 33%R)]
              (Examples.refsIdleR, Examples.domEmpty) Hw Hin)
    as (Em & _ & Eg).
  split; [exact Em | exact Eg].
Defined.

(** X5.  In exact arithmetic, after [n] frames with the mouse away: the
    influence factor is [m0 * 0.95^n], the smoothed mouse x has not moved,
    and the gradient is [c + (g0 - c) * (1 - gradientLerpSpeed)^n], where
    [c] is the centre of the gradient range. *)
Theorem frames_mouse_away_exact
    (str : R -> string) (p : WaveBackground.Props R)
    (dimensions : WaveBackground.Dimensions R)
    (inputs : list (option R * R))
    (s : WaveBackground.Refs R * WaveBackground.Dom) :
  Forall (fun input => fst input = None) inputs ->
  let n := List.length inputs in
  let r := fst (WaveBackground.frames (H := exact str) p dimensions inputs s) in
  let c := gradientCentre p (WaveBackground.width dimensions) in
  WaveBackground.mouseInfluence r
  = (WaveBackground.mouseInfluence (fst s) * (95 / 100) ^ n)%R
  /\ WaveBackground.smoothMouseX r = WaveBackground.smoothMouseX (fst s)
  /\ WaveBackground.smoothGradientX r
     = (c + (WaveBackground.smoothGradientX (fst s) - c)
            * (1 - WaveBackground.gradientLerpSpeed p) ^ n)%R.
Proof.
  intros Hin. revert s.
  induction Hin as [|[target time] inputs Ht _ IH]; intros s; cbv zeta.
  - simpl. repeat split; ring.
  - simpl in Ht. subst target. rewrite frames_cons.
    destruct (IH (WaveBackground.animate (H := exact str) p dimensions time
                    (WaveBackground.setTarget None (fst s), snd s)))
      as (Em & Ex & Eg).
    rewrite Em, Ex, Eg. clear Em Ex Eg IH.
    unfold WaveBackground.animate, WaveBackground.animateRefs,
      WaveBackground.influenceFadeSpeed, gradientCentre.
    simpl. autorewrite with exact_lit.
    split; [field | split; ring].
Qed.

Lemma frames_mouse_away_exact_witness :
  WaveBackground.smoothGradientX
    (fst (WaveBackground.frames (H := exact Examples.no_toString)
            Examples.defaultPropsR Examples.dimensionsR
            [(None, 16%R); (None, 33%R)]
            (Examples.refsHalfR, Examples.domEmpty)))
  = (gradientCentre Examples.defaultPropsR 1280
     + (700 - gradientCentre Examples.defaultPropsR 1280)
       * (1 - 2 / 1000) ^ 2)%R.
Proof.
  apply (frames_mouse_away_exact Examples.no_toString Examples.defaultPropsR
           Examples.dimensionsR
           [(None, 16%R); (None, 33%R)]
           (Examples.refsHalfR, Examples.domEmpty)).
  repeat (apply Forall_cons; [reflexivity|]). apply Forall_nil.
Defined.

(* ------------------------------------------------------------------ *)
(** ** What a run never paints *)

Section NeverPaints.
Context {N : Type} `{Number N}.
Variable p : WaveBackground.Props N.
Variable containerRef : option (WaveBackground.DOMRect N).
Variable dimensions : WaveBackground.Dimensions N.

Lemma dispatch_unmounted_path (ev : WaveBackground.Event N)
    (s : WaveBackground.Refs N * WaveBackground.Dom) :
  WaveBackground.pathRef (snd s) = None ->
  WaveBackground.pathRef
    (snd (WaveBackground.dispatch p containerRef dimensions ev s)) = None.
Proof.
  intros E. destruct ev as [e|time]; simpl; [exact E|]. now rewrite E.
Qed.

Lemma dispatch_unmounted_gradient (ev : WaveBackground.Event N)
    (s : WaveBackground.Refs N * WaveBackground.Dom) :
  WaveBackground.gradientRef (snd s) = None ->
  WaveBackground.gradientRef
    (snd (WaveBackground.dispatch p containerRef dimensions ev s)) = None.
Proof.
  intros E. destruct ev as [e|time]; simpl; [exact E|]. now rewrite E.
Qed.

Lemma dispatch_no_width (ev : WaveBackground.Event N)
    (s : WaveBackground.Refs N * WaveBackground.Dom) :
  ngt (WaveBackground.width dimensions) (lit 0) = false ->
  WaveBackground.pathRef
    (snd (WaveBackground.dispatch p containerRef dimensions ev s))
  = WaveBackground.pathRef (snd s).
Proof.
  intros E. destruct ev as [e|time]; simpl; [reflexivity|].
  rewrite E. now destruct (WaveBackground.pathRef (snd s)).
Qed.

Lemma run_preserves (P : WaveBackground.Refs N * WaveBackground.Dom -> Prop)
    (events : list (WaveBackground.Event N)) :
  (forall ev s, P s -> P (WaveBackground.dispatch p containerRef dimensions ev s)) ->
  forall s, P s -> P (WaveBackground.run p containerRef dimensions events s).
Proof.
  intros Hstep. induction events as [|ev events IH]; intros s Hs.
  - exact Hs.
  - rewrite run_snoc. apply IH. now apply Hstep.
Qed.

End NeverPaints.

(** X6.  In every arithmetic, over any sequence of mousemove events and
    animation frames: while [dimensions.width > 0] is false (a width of
    zero, a negative one, NaN) the path element keeps the [d] attribute it
    had, however many frames run; and a path or gradient element that is
    not mounted stays so. *)
Theorem run_never_paints
    (N : Type) (H : Number N) (p : WaveBackground.Props N)
    (containerRef : option (WaveBackground.DOMRect N))
    (dimensions : WaveBackground.Dimensions N)
    (events : list (WaveBackground.Event N))
    (s : WaveBackground.Refs N * WaveBackground.Dom) :
  let s' := WaveBackground.run p containerRef dimensions events s in
  (ngt (WaveBackground.width dimensions) (lit 0) = false ->
   WaveBackground.pathRef (snd s') = WaveBackground.pathRef (snd s))
  /\ (WaveBackground.pathRef (snd s) = None ->
      WaveBackground.pathRef (snd s') = None)
  /\ (WaveBackground.gradientRef (snd s) = None ->
      WaveBackground.gradientRef (snd s') = None).
Proof.
  intros s'. subst s'. repeat split.
  - intros Hw.
    apply (run_preserves p containerRef dimensions
             (fun s0 => WaveBackground.pathRef (snd s0)
                        = WaveBackground.pathRef (snd s))); [|reflexivity].
    intros ev s0 E. now rewrite dispatch_no_width.
  - apply (run_preserves p containerRef dimensions
             (fun s0 => WaveBackground.pathRef (snd s0) = None)).
    intros ev s0. apply dispatch_unmounted_path.
  - apply (run_preserves p containerRef dimensions
             (fun s0 => WaveBackground.gradientRef (snd s0) = None)).
    intros ev s0. apply dispatch_unmounted_gradient.
Qed.

Lemma run_never_paints_witness :
  WaveBackground.pathRef
    (snd (WaveBackground.run (H := binary64 Examples.sample_runtime)
            Examples.defaultProps None Examples.dimensionsZero
            [WaveBackground.AnimationFrame 16%float;
             WaveBackground.AnimationFrame 33%float]
            (Examples.refsIdle, Examples.domStale)))
  = WaveBackground.pathRef Examples.domStale.
Proof.
  apply (proj1 (run_never_paints float (binary64 Examples.sample_runtime)
                  Examples.defaultProps None Examples.dimensionsZero
                  [WaveBackground.AnimationFrame 16%float;
                   WaveBackground.AnimationFrame 33%float]
                  (Examples.refsIdle, Examples.domStale))).
  vm_compute. reflexivity.
Defined.

(* ------------------------------------------------------------------ *)
(** ** The shape of the mouse bump, in exact arithmetic *)

Lemma exp_monotone (a b : R) : (a <= b)%R -> (exp a <= exp b)%R.
Proof.
  intros [Hlt | ->]; [left; now apply exp_increasing | right; reflexivity].
Qed.

Section Bump.
Variable str : R -> string.
Variable p : WaveBackground.Props R.
Variable r : WaveBackground.Refs R.

(** The amplitude once the influence is above the threshold. *)
Lemma getAmplitudeAtX_active_exact (x : R) :
  (1 / 100 < WaveBackground.mouseInfluence r)%R ->
  WaveBackground.getAmplitudeAtX (H := exact str) p r x
  = (let d := Rmin (Rabs (x - WaveBackground.smoothMouseX r)
                    / WaveBackground.mouseInfluenceRadius p) 1 in
     WaveBackground.baseAmplitude p
     + (WaveBackground.maxAmplitude p - WaveBackground.baseAmplitude p)
       * exp (- d * d * 3) * WaveBackground.mouseInfluence r)%R.
Proof.
  intros Hm. unfold WaveBackground.getAmplitudeAtX. simpl.
  autorewrite with exact_lit. unfold Exact.le.
  destruct (Rle_dec _ _) as [L|_]; [lra|]. cbv zeta. ring.
Qed.

Lemma getAmplitudeAtX_idle_exact (x : R) :
  (WaveBackground.mouseInfluence r <= 1 / 100)%R ->
  WaveBackground.getAmplitudeAtX (H := exact str) p r x
  = WaveBackground.baseAmplitude p.
Proof.
  intros Hm. unfold WaveBackground.getAmplitudeAtX. simpl.
  autorewrite with exact_lit. unfold Exact.le.
  destruct (Rle_dec _ _) as [_|L]; [reflexivity | lra].
Qed.

(** The normalized distance grows with the distance and stays in [0, 1]. *)
Lemma normalized_distance_bounds (x : R) :
  (0 < WaveBackground.mouseInfluenceRadius p)%R ->
  (0 <= Rmin (Rabs (x - WaveBackground.smoothMouseX r)
             / WaveBackground.mouseInfluenceRadius p) 1 <= 1)%R.
Proof.
  intros HR. split; [|apply Rmin_r].
  apply Rmin_glb; [|lra].
  apply Rmult_le_pos; [apply Rabs_pos | left; now apply Rinv_0_lt_compat].
Qed.

Lemma normalized_distance_monotone (x1 x2 : R) :
  (0 < WaveBackground.mouseInfluenceRadius p)%R ->
  (Rabs (x1 - WaveBackground.smoothMouseX r)
   <= Rabs (x2 - WaveBackground.smoothMouseX r))%R ->
  (Rmin (Rabs (x1 - WaveBackground.smoothMouseX r)
         / WaveBackground.mouseInfluenceRadius p) 1
   <= Rmin (Rabs (x2 - WaveBackground.smoothMouseX r)
            / WaveBackground.mouseInfluenceRadius p) 1)%R.
Proof.
  intros HR Hx. apply Rle_min_compat_r.
  apply Rmult_le_compat_r; [left; now apply Rinv_0_lt_compat | exact Hx].
Qed.

End Bump.

(** X7.  In exact arithmetic, with a positive influence radius and the
    influence factor above 0.01: the amplitude is symmetric about the
    smoothed mouse x, equals [base + (max - base) * influence] there, and
    equals [base + (max - base) * exp(-3) * influence] for every sample at a
    distance of the radius or more. *)
Theorem getAmplitudeAtX_bump_exact
    (str : R -> string) (p : WaveBackground.Props R)
    (r : WaveBackground.Refs R) :
  (0 < WaveBackground.mouseInfluenceRadius p)%R ->
  (1 / 100 < WaveBackground.mouseInfluence r)%R ->
  let c := WaveBackground.smoothMouseX r in
  let amplitude := WaveBackground.getAmplitudeAtX (H := exact str) p r in
  (forall delta : R, amplitude (c + delta)%R = amplitude (c - delta)%R)
  /\ amplitude c
     = (WaveBackground.baseAmplitude p
        + (WaveBackground.maxAmplitude p - WaveBackground.baseAmplitude p)
          * WaveBackground.mouseInfluence r)%R
  /\ (forall x : R,
        (WaveBackground.mouseInfluenceRadius p <= Rabs (x - c))%R ->
        amplitude x
        = (WaveBackground.baseAmplitude p
           + (WaveBackground.maxAmplitude p - WaveBackground.baseAmplitude p)
             * exp (- 3) * WaveBackground.mouseInfluence r)%R).
Proof.
  intros HR Hm c amplitude. subst amplitude. repeat split.
  - intros delta. rewrite !getAmplitudeAtX_active_exact by exact Hm.
    cbv zeta. fold c.
    replace (c + delta - c)%R with delta by ring.
    replace (c - delta - c)%R with (- delta)%R by ring.
    now rewrite Rabs_Ropp.
  - rewrite getAmplitudeAtX_active_exact by exact Hm. cbv zeta. fold c.
    replace (c - c)%R with 0%R by ring. rewrite Rabs_R0.
    replace (0 / WaveBackground.mouseInfluenceRadius p)%R with 0%R
      by (field; lra).
    rewrite Rmin_left by lra.
    replace (exp (Ropp 0 * 0 * 3)) with (exp 0) by (f_equal; ring).
    rewrite exp_0. ring.
  - intros x Hx. rewrite getAmplitudeAtX_active_exact by exact Hm.
    cbv zeta. fold c.
    rewrite Rmin_right.
    + replace (exp (Ropp 1 * 1 * 3)) with (exp (- 3)) by (f_equal; ring).
      reflexivity.
    + apply (Rmult_le_reg_r (WaveBackground.mouseInfluenceRadius p));
        [exact HR|].
      replace (Rabs (x - c) / WaveBackground.mouseInfluenceRadius p
               * WaveBackground.mouseInfluenceRadius p)%R
        with (Rabs (x - c)) by (field; lra).
      lra.
Qed.

Lemma getAmplitudeAtX_bump_exact_witness :
  WaveBackground.getAmplitudeAtX (H := exact Examples.no_toString)
    Examples.defaultPropsR Examples.refsHalfR 640%R
  = (8 + (30 - 8) * (1 / 2))%R.
Proof.
  apply (proj1 (proj2 (getAmplitudeAtX_bump_exact Examples.no_toString
                         Examples.defaultPropsR Examples.refsHalfR
                         ltac:(simpl; lra) ltac:(simpl; lra)))).
Defined.

(** X8.  In exact arithmetic, with a positive influence radius,
    [baseAmplitude <= maxAmplitude] and a non-negative influence factor:
    the amplitude does not grow with the distance from the smoothed mouse
    x, so no sample is higher than the one at the mouse. *)
Theorem getAmplitudeAtX_falls_with_distance_exact
    (str : R -> string) (p : WaveBackground.Props R)
    (r : WaveBackground.Refs R) (x1 x2 : R) :
  (0 < WaveBackground.mouseInfluenceRadius p)%R ->
  (WaveBackground.baseAmplitude p <= WaveBackground.maxAmplitude p)%R ->
  (0 <= WaveBackground.mouseInfluence r)%R ->
  (Rabs (x1 - WaveBackground.smoothMouseX r)
   <= Rabs (x2 - WaveBackground.smoothMouseX r))%R ->
  (WaveBackground.getAmplitudeAtX (H := exact str) p r x2
   <= WaveBackground.getAmplitudeAtX (H := exact str) p r x1
   <= WaveBackground.getAmplitudeAtX (H := exact str) p r
        (WaveBackground.smoothMouseX r))%R.
Proof.
  intros HR Hbm Hm Hx.
  destruct (Rle_dec (WaveBackground.mouseInfluence r) (1 / 100)) as [Hidle|Hact].
  - rewrite !getAmplitudeAtX_idle_exact by exact Hidle. lra.
  - assert (Hact' : (1 / 100 < WaveBackground.mouseInfluence r)%R) by lra.
    assert (Mono : forall a b : R,
               (Rabs (a - WaveBackground.smoothMouseX r)
                <= Rabs (b - WaveBackground.smoothMouseX r))%R ->
               (WaveBackground.getAmplitudeAtX (H := exact str) p r b
                <= WaveBackground.getAmplitudeAtX (H := exact str) p r a)%R).
    { intros a b Hab. rewrite !getAmplitudeAtX_active_exact by exact Hact'.
      cbv zeta.
      pose proof (normalized_distance_bounds p r a HR) as [Ha0 _].
      pose proof (normalized_distance_monotone p r a b HR Hab) as Hd.
      set (da := Rmin (Rabs (a - WaveBackground.smoothMouseX r)
                       / WaveBackground.mouseInfluenceRadius p) 1) in *.
      set (db := Rmin (Rabs (b - WaveBackground.smoothMouseX r)
                       / WaveBackground.mouseInfluenceRadius p) 1) in *.
      assert (He : (exp (- db * db * 3) <= exp (- da * da * 3))%R)
        by (apply exp_monotone; nra).
      set (ea := exp (- da * da * 3)) in *.
      set (eb := exp (- db * db * 3)) in *.
      apply Rplus_le_compat_l. apply Rmult_le_compat_r; [exact Hm|].
      apply Rmult_le_compat_l; lra. }
    split; [now apply Mono|].
    apply Mono.
    replace (WaveBackground.smoothMouseX r - WaveBackground.smoothMouseX r)%R
      with 0%R by ring.
    rewrite Rabs_R0. apply Rabs_pos.
Qed.

Lemma getAmplitudeAtX_falls_with_distance_exact_witness :
  (WaveBackground.getAmplitudeAtX (H := exact Examples.no_toString)
     Examples.defaultPropsR Examples.refsHalfR 900
   <= WaveBackground.getAmplitudeAtX (H := exact Examples.no_toString)
        Examples.defaultPropsR Examples.refsHalfR 700
   <= WaveBackground.getAmplitudeAtX (H := exact Examples.no_toString)
        Examples.defaultPropsR Examples.refsHalfR 640)%R.
Proof.
  apply (getAmplitudeAtX_falls_with_distance_exact Examples.no_toString
           Examples.defaultPropsR Examples.refsHalfR 700%R 900%R).
  - simpl; lra.
  - simpl; lra.
  - simpl; lra.
  - simpl. rewrite !Rabs_pos_eq by lra. lra.
Defined.

(* ------------------------------------------------------------------ *)
(** ** The path while the mouse has no influence, and its extent *)

Lemma fold_left_ext_in (A B : Type) (f g : A -> B -> A) (l : list B) (a : A) :
  (forall a0 b, f a0 b = g a0 b) -> fold_left f l a = fold_left g l a.
Proof.
  intros E. revert a. induction l as [|b l IH]; intros a; simpl;
    [reflexivity | now rewrite E, IH].
Qed.

(** X9.  In every arithmetic: while the influence factor is at most 0.01
    the path depends on the base amplitude, the wave speed, frequency and
    offset, the time and the size only; the mouse position, the exact
    influence, the maximum amplitude and the radius play no part. *)
Theorem generateWavePath_idle
    (N : Type) (H : Number N)
    (p1 p2 : WaveBackground.Props N) (r1 r2 : WaveBackground.Refs N)
    (t w h : N) :
  nle (WaveBackground.mouseInfluence r1) (lit 0.01) = true ->
  nle (WaveBackground.mouseInfluence r2) (lit 0.01) = true ->
  WaveBackground.baseAmplitude p1 = WaveBackground.baseAmplitude p2 ->
  WaveBackground.waveSpeed p1 = WaveBackground.waveSpeed p2 ->
  WaveBackground.waveFrequency p1 = WaveBackground.waveFrequency p2 ->
  WaveBackground.waveOffset p1 = WaveBackground.waveOffset p2 ->
  WaveBackground.generateWavePath p1 r1 t w h
  = WaveBackground.generateWavePath p2 r2 t w h.
Proof.
  intros H1 H2 Hb Hs Hf Ho.
  unfold WaveBackground.generateWavePath. cbv zeta. f_equal.
  apply fold_left_ext_in. intros path i.
  unfold WaveBackground.waveStep, WaveBackground.getAmplitudeAtX.
  now rewrite H1, H2, Hb, Hs, Hf, Ho.
Qed.

Lemma generateWavePath_idle_witness :
  WaveBackground.generateWavePath (H := binary64 Examples.sample_runtime)
    Examples.defaultProps Examples.refsIdle 0%float 1280%float 720%float
  = WaveBackground.generateWavePath (H := binary64 Examples.sample_runtime)
      Examples.defaultProps Examples.refsElsewhere 0%float 1280%float 720%float.
Proof.
  apply (generateWavePath_idle float (binary64 Examples.sample_runtime)
           Examples.defaultProps Examples.defaultProps
           Examples.refsIdle Examples.refsElsewhere);
    reflexivity.
Defined.

(** The factor [(1 + sin a + sin b * 0.3) * 0.5] of the wave lies between
    -0.15 and 1.15. *)
Lemma wave_factor_bounds (a b : R) :
  (- (15 / 100) <= (1 + sin a + sin b * (3 / 10)) * (5 / 10) <= 115 / 100)%R.
Proof.
  pose proof (SIN_bound a). pose proof (SIN_bound b). lra.
Qed.

Lemma wave_height_bounds (A M base a b : R) :
  (0 <= A <= M)%R ->
  (base - 115 / 100 * M
   <= base - A * (1 + sin a + sin b * (3 / 10)) * (5 / 10)
   <= base + 15 / 100 * M)%R.
Proof.
  intros HA. pose proof (wave_factor_bounds a b) as HF.
  replace (A * (1 + sin a + sin b * (3 / 10)) * (5 / 10))%R
    with (A * ((1 + sin a + sin b * (3 / 10)) * (5 / 10)))%R by ring.
  set (f := ((1 + sin a + sin b * (3 / 10)) * (5 / 10))%R) in *.
  split; nra.
Qed.

(** X10.  In exact arithmetic, for a positive width and a non-zero
    influence radius, with [0 <= baseAmplitude <= maxAmplitude] and the
    influence factor in [0, 1]: iteration [i] of the loop of
    [generateWavePath] appends, whatever the printing of numbers, the point
    [L x y] with [x = i * width / 100] and [y] the wave height [wave_y] at
    [i]; [y] lies between [height - waveOffset - 1.15 * maxAmplitude] and
    [height - waveOffset + 0.15 * maxAmplitude]; [x] is 0 at the first
    point, [width] at the last (i = 100), and grows with [i]. *)
Theorem waveStep_extent_exact
    (str : R -> string) (p : WaveBackground.Props R)
    (r : WaveBackground.Refs R) (t w h : R) (path : string) (i : nat) :
  (0 < w)%R ->
  WaveBackground.mouseInfluenceRadius p <> 0%R ->
  (0 <= WaveBackground.baseAmplitude p <= WaveBackground.maxAmplitude p)%R ->
  (0 <= WaveBackground.mouseInfluence r <= 1)%R ->
  let x := fun k : nat => (INR k * w / 100)%R in
  let y := wave_y (H := exact str) p r t w h i in
  (forall print : R -> string,
      WaveBackground.waveStep (H := exact print) p r t w h
        (ndiv (Number := exact print) w
              (ofNat (H := exact print) WaveBackground.segments))
        path i
      = (path ++ " L " ++ print (x i) ++ " " ++ print y)%string)
  /\ (h - WaveBackground.waveOffset p - 115 / 100 * WaveBackground.maxAmplitude p
      <= y
      <= h - WaveBackground.waveOffset p
         + 15 / 100 * WaveBackground.maxAmplitude p)%R
  /\ x 0%nat = 0%R
  /\ x 100%nat = w
  /\ (x i < x (S i))%R.
Proof.
  intros Hw _ Hb Hm x y.
  assert (Ex : forall print : R -> string,
             wave_x (H := exact print) w i = x i).
  { intros print. unfold wave_x, x. rewrite ofNat_exact. simpl.
    autorewrite with exact_lit. field. }
  split; [|split; [|split; [|split]]].
  - intros print. rewrite <- (Ex print). reflexivity.
  - unfold y, wave_y. simpl. autorewrite with exact_lit.
    apply wave_height_bounds.
    pose proof (amplitude_between_exact str p r
                  (wave_x (H := exact str) w i) (proj2 Hb) Hm) as HA.
    simpl in HA. autorewrite with exact_lit in HA. lra.
  - unfold x. simpl. lra.
  - unfold x. rewrite INR_IZR_INZ. change (Z.of_nat 100) with 100%Z. field.
  - unfold x. rewrite S_INR. nra.
Qed.

Lemma waveStep_extent_exact_witness :
  let y := wave_y (H := exact Examples.no_toString)
             Examples.defaultPropsR Examples.refsHalfR 0%R 1280%R 720%R 25 in
  (720 - 50 - 115 / 100 * 30 <= y <= 720 - 50 + 15 / 100 * 30)%R
  /\ (INR 25 * 1280 / 100 < INR 26 * 1280 / 100)%R
  /\ WaveBackground.waveStep (H := exact Examples.no_toString)
       Examples.defaultPropsR Examples.refsHalfR 0%R 1280%R 720%R
       (ndiv (Number := exact Examples.no_toString) 1280%R
             (ofNat (H := exact Examples.no_toString) WaveBackground.segments))
       "M 0 730" 25
     = ("M 0 730" ++ " L " ++ Examples.no_toString (INR 25 * 1280 / 100)%R
          ++ " " ++ Examples.no_toString y)%string.
Proof.
  intros y.
  assert (Hw : (0 < 1280)%R) by lra.
  assert (Hr : WaveBackground.mouseInfluenceRadius Examples.defaultPropsR <> 0%R)
    by (simpl; lra).
  assert (Hb : (0 <= WaveBackground.baseAmplitude Examples.defaultPropsR
                <= WaveBackground.maxAmplitude Examples.defaultPropsR)%R)
    by (simpl; lra).
  assert (Hm : (0 <= WaveBackground.mouseInfluence Examples.refsHalfR <= 1)%R)
    by (simpl; lra).
  destruct (waveStep_extent_exact Examples.no_toString Examples.defaultPropsR
              Examples.refsHalfR 0%R 1280%R 720%R "M 0 730" 25 Hw Hr Hb Hm)
    as (E & Hy & _ & _ & Hx).
  split; [exact Hy | split; [exact Hx | exact (E Examples.no_toString)]].
Defined.

(* ------------------------------------------------------------------ *)
(** ** The scroll blur: thresholds, clamping, repetition *)

Lemma Q2R_lit_6 : Q2R 6 = 6%R.
Proof. unfold Q2R; simpl. lra. Qed.
Lemma Q2R_lit_0_8 : Q2R 0.8 = (8 / 10)%R.
Proof. unfold Q2R; simpl. lra. Qed.

#[local] Hint Rewrite Q2R_lit_6 Q2R_lit_0_8 : exact_lit.

(** The progress of the fade in exact arithmetic, for a viewport of
    positive height: 0 down to 80% of the height, 1 from the bottom on,
    linear in between. *)
Lemma progressOf_exact (str : R -> string) (top vh : R) :
  (0 < vh)%R ->
  ((top <= 8 / 10 * vh)%R -> progressOf (H := exact str) top vh = 0%R)
  /\ ((vh <= top)%R -> progressOf (H := exact str) top vh = 1%R)
  /\ ((8 / 10 * vh < top < vh)%R ->
      progressOf (H := exact str) top vh
      = ((top - 8 / 10 * vh) / (2 / 10 * vh))%R
      /\ (0 < (top - 8 / 10 * vh) / (2 / 10 * vh) < 1)%R).
Proof.
  intros Hvh. unfold progressOf. simpl. autorewrite with exact_lit.
  replace ((top - vh * (8 / 10)) / (vh - vh * (8 / 10)))%R
    with ((top - 8 / 10 * vh) / (2 / 10 * vh))%R by (field; lra).
  set (q := ((top - 8 / 10 * vh) / (2 / 10 * vh))%R).
  assert (Hq : (q * (2 / 10 * vh) = top - 8 / 10 * vh)%R)
    by (unfold q; field; lra).
  assert (Hpos : (0 < 2 / 10 * vh)%R) by lra.
  repeat split.
  - intros Ht. assert (q <= 0)%R by nra.
    rewrite Rmin_right by lra. now rewrite Rmax_left by lra.
  - intros Ht. assert (1 <= q)%R by nra.
    rewrite Rmin_left by lra. now rewrite Rmax_right by lra.
  - rewrite Rmin_right by (destruct H; nra). rewrite Rmax_right; [reflexivity|].
    destruct H; nra.
  - destruct H; nra.
  - destruct H; nra.
Qed.

(** The two style values for a given progress, in exact arithmetic. *)
Lemma styles_of_progress_exact (str : R -> string) (top vh q : R) :
  progressOf (H := exact str) top vh = q ->
  ((q <= 0)%R ->
   filterOf (H := exact str) top vh = "none"%string
   /\ textShadowOf (H := exact str) top vh = "none"%string)
  /\ ((0 < q)%R ->
      filterOf (H := exact str) top vh
      = ("blur(" ++ str (6 * q)%R ++ "px)")%string
      /\ textShadowOf (H := exact str) top vh
         = ("0 0 " ++ str (6 * q * 3)%R ++ "px rgb(var(--primary) / "
              ++ str (5 / 10 * q)%R ++ ")")%string).
Proof.
  intros Eq. unfold filterOf, textShadowOf. rewrite Eq. simpl.
  autorewrite with exact_lit. unfold Exact.gt.
  split; intros Hq; destruct (Rgt_dec q 0) as [G|G]; try lra; now split.
Qed.

(** X11.  In exact arithmetic, for a viewport of positive height [vh] and
    a mounted element with top [top]: the callback writes [filter = none]
    and [text-shadow = none] when [top <= 0.8 vh]; the full blur
    ([blur(6px)], glow radius 18, alpha 0.5) when [top >= vh]; and in
    between the blur [6 q], glow radius [18 q] and alpha [0.5 q] with
    [q = (top - 0.8 vh) / (0.2 vh)], strictly between 0 and 1. *)
Theorem scrollCallback_thresholds_exact
    (str : R -> string) (n : ScrollBlur.Node) (vh : R)
    (d : ScrollBlur.Document R) :
  (0 < vh)%R ->
  let top := ScrollBlur.bounding_top (d n) in
  let q := ((top - 8 / 10 * vh) / (2 / 10 * vh))%R in
  exists d' : ScrollBlur.Document R,
    ScrollBlur.scrollCallback (H := exact str) (Some n) vh d
    = ScrollBlur.Returned d'
    /\ ((top <= 8 / 10 * vh)%R ->
        ScrollBlur.style_filter (d' n) = "none"%string
        /\ ScrollBlur.style_textShadow (d' n) = "none"%string)
    /\ ((vh <= top)%R ->
        ScrollBlur.style_filter (d' n) = ("blur(" ++ str 6%R ++ "px)")%string
        /\ ScrollBlur.style_textShadow (d' n)
           = ("0 0 " ++ str 18%R ++ "px rgb(var(--primary) / "
                ++ str (5 / 10)%R ++ ")")%string)
    /\ ((8 / 10 * vh < top < vh)%R ->
        (0 < q < 1)%R
        /\ ScrollBlur.style_filter (d' n)
           = ("blur(" ++ str (6 * q)%R ++ "px)")%string
        /\ ScrollBlur.style_textShadow (d' n)
           = ("0 0 " ++ str (6 * q * 3)%R ++ "px rgb(var(--primary) / "
                ++ str (5 / 10 * q)%R ++ ")")%string).
Proof.
  intros Hvh top q.
  destruct (scrollCallback_mounted (H := exact str) n vh d)
    as (d' & Hr & Hf & Hs & _).
  fold top in Hf, Hs.
  destruct (progressOf_exact str top vh Hvh) as (P0 & P1 & Pq).
  exists d'. split; [exact Hr|]. rewrite Hf, Hs. repeat split.
  - apply (styles_of_progress_exact str top vh 0%R); [now apply P0 | lra].
  - apply (styles_of_progress_exact str top vh 0%R); [now apply P0 | lra].
  - destruct (proj2 (styles_of_progress_exact str top vh 1%R (P1 H))) as [E _];
      [lra|]. rewrite E. now replace (6 * 1)%R with 6%R by ring.
  - destruct (proj2 (styles_of_progress_exact str top vh 1%R (P1 H))) as [_ E];
      [lra|]. rewrite E.
    replace (6 * 1 * 3)%R with 18%R by ring.
    now replace (5 / 10 * 1)%R with (5 / 10)%R by ring.
  - now apply Pq.
  - now apply Pq.
  - destruct (Pq H) as [E Hq].
    now apply (styles_of_progress_exact str top vh q E).
  - destruct (Pq H) as [E Hq].
    now apply (styles_of_progress_exact str top vh q E).
Qed.

Lemma scrollCallback_thresholds_exact_witness :
  exists d' : ScrollBlur.Document R,
    ScrollBlur.scrollCallback (H := exact Examples.no_toString) (Some 0%nat)
      768%R Examples.docBottomR
    = ScrollBlur.Returned d'
    /\ ScrollBlur.style_filter (d' 0%nat)
       = ("blur(" ++ Examples.no_toString 6%R ++ "px)")%string.
Proof.
  destruct (scrollCallback_thresholds_exact Examples.no_toString 0%nat 768%R
              Examples.docBottomR ltac:(lra))
    as (d' & Hr & _ & Hfull & _).
  exists d'. split; [exact Hr|]. apply Hfull. simpl. lra.
Defined.

(** *** Comparisons of binary64 *)

Lemma SFcompare_antisym (x y : spec_float) :
  SFcompare y x = option_map CompOpp (SFcompare x y).
Proof.
  destruct x as [sx|sx| |sx mx ex], y as [sy|sy| |sy my ey]; simpl;
    try reflexivity;
    try (destruct sx; reflexivity); try (destruct sy; reflexivity);
    try (destruct sx, sy; reflexivity).
  assert (A : Pos.compare_cont Eq my mx = CompOpp (Pos.compare_cont Eq mx my))
    by (symmetry; apply (Pos.compare_cont_antisym mx my Eq)).
  destruct sx, sy; try reflexivity;
    rewrite (Z.compare_antisym ex ey);
    destruct (Z.compare ex ey); simpl; try reflexivity;
    rewrite A; destruct (Pos.compare_cont Eq mx my); reflexivity.
Qed.

Lemma SFcompare_defined (x y : spec_float) :
  x <> S754_nan -> y <> S754_nan -> exists c, SFcompare x y = Some c.
Proof.
  intros Hx Hy.
  destruct x as [sx|sx| |sx mx ex], y as [sy|sy| |sy my ey]; simpl;
    try congruence; eexists; reflexivity.
Qed.

Lemma is_nan_false (x : float) : is_nan x = false -> Prim2SF x <> S754_nan.
Proof.
  unfold is_nan. rewrite FloatAxioms.eqb_spec. intros E Hn. rewrite Hn in E.
  discriminate.
Qed.

Lemma float_ltb_to_leb (x y : float) :
  (x <? y)%float = true -> (x <=? y)%float = true.
Proof.
  rewrite ltb_spec, leb_spec. unfold SFltb, SFleb.
  now destruct (SFcompare (Prim2SF x) (Prim2SF y)) as [[| |]|].
Qed.

Lemma float_not_ltb (x y : float) :
  is_nan x = false -> is_nan y = false ->
  (x <? y)%float = false -> (y <=? x)%float = true.
Proof.
  intros Hx Hy. rewrite ltb_spec, leb_spec. unfold SFltb, SFleb.
  rewrite (SFcompare_antisym (Prim2SF x) (Prim2SF y)).
  destruct (SFcompare_defined _ _ (is_nan_false _ Hx) (is_nan_false _ Hy))
    as [c ->].
  now destruct c.
Qed.

(** The clamp [Math.max(0, Math.min(1, x))] in binary64: NaN for NaN, and
    a value above 0 only if it is at most 1. *)
Lemma clamp_binary64 (x : float) :
  (is_nan x = true -> F64.max 0 (F64.min 1 x) = nan)
  /\ ((0 <? F64.max 0 (F64.min 1 x))%float = true ->
      (F64.max 0 (F64.min 1 x) <=? 1)%float = true).
Proof.
  split.
  - intros Hn. unfold F64.min. rewrite Hn, orb_true_r. reflexivity.
  - destruct (is_nan x) eqn:Hn.
    { unfold F64.min. rewrite Hn, orb_true_r. intros E. discriminate E. }
    assert (Hy : exists y, F64.min 1 x = y /\ is_nan y = false
                           /\ (y <=? 1)%float = true).
    { unfold F64.min. rewrite Hn. change (is_nan 1) with false. simpl orb.
      destruct (1 <? x)%float eqn:L1.
      - exists 1%float. repeat split; reflexivity.
      - destruct (x <? 1)%float eqn:L2.
        + exists x. repeat split; [exact Hn | now apply float_ltb_to_leb].
        + change (get_sign 1) with false. exists x.
          repeat split; [exact Hn|].
          apply float_not_ltb; [reflexivity | exact Hn | exact L1]. }
    destruct Hy as (y & -> & Hyn & Hy1).
    unfold F64.max. change (is_nan 0) with false. rewrite Hyn. simpl orb.
    destruct (0 <? y)%float eqn:L0; [intros _; exact Hy1|].
    destruct (y <? 0)%float; [intros E; discriminate E|].
    change (get_sign 0) with false. intros E. discriminate E.
Qed.

(** X12.  In binary64, for every mounted element and every geometry (NaN
    and a viewport of height 0 included): the callback returns, and either
    it writes [none] to both properties, or the clamped progress [p] it
    prints is above 0 and at most 1, the filter being [blur(6 p px)].  When
    the raw progress is NaN it writes [none]: no style ever holds a NaN. *)
Theorem scrollCallback_clamped_binary64
    (rt : F64.Runtime) (n : ScrollBlur.Node) (vh : float)
    (d : ScrollBlur.Document float) :
  let top := ScrollBlur.bounding_top (d n) in
  let raw := ((top - vh * 0.8) / (vh - vh * 0.8))%float in
  let p := F64.max 0 (F64.min 1 raw) in
  exists d' : ScrollBlur.Document float,
    ScrollBlur.scrollCallback (H := binary64 rt) (Some n) vh d
    = ScrollBlur.Returned d'
    /\ ((ScrollBlur.style_filter (d' n) = "none"%string
         /\ ScrollBlur.style_textShadow (d' n) = "none"%string)
        \/ ((0 <? p)%float = true /\ (p <=? 1)%float = true
            /\ ScrollBlur.style_filter (d' n)
               = ("blur(" ++ F64.number_toString rt (6 * p) ++ "px)")%string
            /\ ScrollBlur.style_textShadow (d' n)
               = ("0 0 " ++ F64.number_toString rt (6 * p * 3)
                    ++ "px rgb(var(--primary) / "
                    ++ F64.number_toString rt (0.5 * p) ++ ")")%string))
    /\ (is_nan raw = true ->
        ScrollBlur.style_filter (d' n) = "none"%string
        /\ ScrollBlur.style_textShadow (d' n) = "none"%string).
Proof.
  intros top raw p.
  destruct (scrollCallback_mounted (H := binary64 rt) n vh d)
    as (d' & Hr & Hf & Hs & _).
  fold top in Hf, Hs. exists d'. split; [exact Hr|].
  assert (Ef : filterOf (H := binary64 rt) top vh
               = if (0 <? p)%float
                 then ("blur(" ++ F64.number_toString rt (6 * p) ++ "px)")%string
                 else "none"%string) by reflexivity.
  assert (Es : textShadowOf (H := binary64 rt) top vh
               = if (0 <? p)%float
                 then ("0 0 " ++ F64.number_toString rt (6 * p * 3)
                         ++ "px rgb(var(--primary) / "
                         ++ F64.number_toString rt (0.5 * p) ++ ")")%string
                 else "none"%string) by reflexivity.
  rewrite Hf, Hs, Ef, Es.
  destruct (clamp_binary64 raw) as [Cnan Cle]. fold p in Cnan, Cle.
  split.
  - destruct (0 <? p)%float eqn:L; [right | left; now split].
    repeat split; try reflexivity. now apply Cle.
  - intros Hn. rewrite (Cnan Hn). now split.
Qed.

Lemma scrollCallback_clamped_binary64_witness :
  exists d' : ScrollBlur.Document float,
    ScrollBlur.scrollCallback (H := binary64 Examples.sample_runtime)
      (Some 0%nat) 0%float Examples.docOrigin
    = ScrollBlur.Returned d'
    /\ ScrollBlur.style_filter (d' 0%nat) = "none"%string
    /\ ScrollBlur.style_textShadow (d' 0%nat) = "none"%string.
Proof.
  destruct (scrollCallback_clamped_binary64 Examples.sample_runtime 0%nat
              0%float Examples.docOrigin)
    as (d' & Hr & _ & Hnan).
  exists d'. split; [exact Hr|]. apply Hnan. vm_compute. reflexivity.
Defined.

(** X13.  In every arithmetic, for a mounted element: the callback changes
    nothing but the [filter] and [text-shadow] of that element (its
    geometry and every other element are as before), and running it again
    with nothing scrolled in between changes nothing more. *)
Theorem scrollCallback_idempotent
    (N : Type) (H : Number N) (n : ScrollBlur.Node) (vh : N)
    (d : ScrollBlur.Document N) :
  exists d' : ScrollBlur.Document N,
    ScrollBlur.scrollCallback (Some n) vh d = ScrollBlur.Returned d'
    /\ ScrollBlur.bounding_top (d' n) = ScrollBlur.bounding_top (d n)
    /\ (forall m, m <> n -> d' m = d m)
    /\ exists d'' : ScrollBlur.Document N,
         ScrollBlur.scrollCallback (Some n) vh d' = ScrollBlur.Returned d''
         /\ forall m, d'' m = d' m.
Proof.
  destruct (scrollCallback_mounted n vh d) as (d' & Hr & Hf & Hs & Ht & Ho).
  destruct (scrollCallback_mounted n vh d')
    as (d'' & Hr' & Hf' & Hs' & Ht' & Ho').
  exists d'. repeat split; try assumption.
  exists d''. split; [exact Hr'|]. intros m.
  destruct (Nat.eq_dec m n) as [->|Hm]; [|now apply Ho'].
  rewrite Ht in Hf', Hs'. rewrite <- Hf in Hf'. rewrite <- Hs in Hs'.
  destruct (d'' n), (d' n); simpl in *. congruence.
Qed.

(* ------------------------------------------------------------------ *)
(** ** The language toggle from any language *)

(** X14.  Whatever the language was (a value other than "br" and "en"
    included), one toggle leaves it at "br" or "en" and leaves the
    reduced-motion preference alone; from then on two more toggles change
    nothing. *)
Theorem toggleLang_settles (u : NavMenu.UserPreferences) :
  let u1 := NavMenu.toggleLang u in
  (NavMenu.lang u1 = "br"%string \/ NavMenu.lang u1 = "en"%string)
  /\ NavMenu.prefersReducedMotion u1 = NavMenu.prefersReducedMotion u
  /\ NavMenu.toggleLang (NavMenu.toggleLang u1) = u1.
Proof.
  destruct u as [l m]. unfold NavMenu.toggleLang, NavMenu.setLang. simpl.
  destruct (String.eqb l "br"); simpl; repeat split; auto.
Qed.

(** X15.  The title of the toggle button names the language the toggle
    switches to: it reads "Switch to English" exactly when a click sets the
    language to "en", and "Mudar para Português" exactly when a click sets
    it to "br". *)
Theorem toggleTitle_names_the_switch (u : NavMenu.UserPreferences) :
  (NavMenu.toggleTitle u = "Switch to English"%string
   <-> NavMenu.lang (NavMenu.toggleLang u) = "en"%string)
  /\ (NavMenu.toggleTitle u = "Mudar para Português"%string
      <-> NavMenu.lang (NavMenu.toggleLang u) = "br"%string).
Proof.
  destruct u as [l m].
  unfold NavMenu.toggleTitle, NavMenu.toggleLang, NavMenu.setLang. simpl.
  destruct (String.eqb l "br"); simpl; split; split; intros E;
    try reflexivity; discriminate E.
Qed.

(* ------------------------------------------------------------------ *)
(** ** The keys and indices of the project cards *)

Lemma append_injective (prefix a b : string) :
  (prefix ++ a)%string = (prefix ++ b)%string -> a = b.
Proof.
  induction prefix as [|ch prefix IH]; simpl; intros E;
    [exact E | injection E as E; now apply IH].
Qed.

Lemma NoDup_map_injective (A B : Type) (f : A -> B) (l : list A) :
  (forall a b, f a = f b -> a = b) -> NoDup l -> NoDup (map f l).
Proof.
  intros Hf Hl. induction Hl as [|a l Hnotin _ IH]; simpl; constructor.
  - intros Hin. apply in_map_iff in Hin as (b & E & Hb).
    apply Hf in E. now subst b.
  - exact IH.
Qed.

Lemma mapCards_keys (lang : string) (ps : list Projects.Project) (i : nat) :
  map Projects.card_key (Projects.mapCards lang i ps)
  = map (String.append "project-card-") (map Projects.title ps).
Proof.
  revert i. induction ps as [|q ps IH]; intros i; simpl;
    [reflexivity | now rewrite IH].
Qed.

Lemma mapCards_indices (lang : string) (ps : list Projects.Project) (i : nat) :
  map Projects.card_index (Projects.mapCards lang i ps)
  = seq i (List.length ps).
Proof.
  revert i. induction ps as [|q ps IH]; intros i; simpl;
    [reflexivity | now rewrite IH].
Qed.

(** X16.  In a render, the React keys of the cards are pairwise distinct
    exactly when the titles of the selected projects are; the cards carry
    the indices 0, 1, ... in order, one card per project (none for an empty
    list). *)
Theorem card_keys_distinct_iff_titles (lang : string) (c : Projects.Content) :
  let cards := snd (fst (Projects.render lang c)) in
  let selected := Projects.projects lang c in
  (NoDup (map Projects.card_key cards)
   <-> NoDup (map Projects.title selected))
  /\ map Projects.card_index cards = seq 0 (List.length selected)
  /\ List.length cards = List.length selected.
Proof.
  intros cards selected. subst cards. unfold Projects.render. simpl.
  fold selected. rewrite mapCards_keys, mapCards_indices. repeat split.
  - apply NoDup_map_inv.
  - apply NoDup_map_injective.
    intros a b. apply append_injective.
  - rewrite <- (length_map Projects.card_p). now rewrite mapCards_payload.
Qed.

(* ------------------------------------------------------------------ *)
(** ** The two components over a whole run *)

Section SameRun.
Context {N : Type} `{Number N}.
Variable p1 : WaveBackground.Props N.
Variable p2 : WaveBackground2.Props N.

Hypothesis same_max :
  WaveBackground.maxAmplitude p1 = WaveBackground2.maxAmplitude p2.
Hypothesis same_base :
  WaveBackground.baseAmplitude p1 = WaveBackground2.baseAmplitude p2.
Hypothesis same_speed :
  WaveBackground.waveSpeed p1 = WaveBackground2.waveSpeed p2.
Hypothesis same_frequency :
  WaveBackground.waveFrequency p1 = WaveBackground2.waveFrequency p2.
Hypothesis same_radius :
  WaveBackground.mouseInfluenceRadius p1 = WaveBackground2.mouseInfluenceRadius p2.
Hypothesis same_offset :
  WaveBackground.waveOffset p1 = WaveBackground2.waveOffset p2.
Hypothesis lerp_is_constant : WaveBackground.mouseLerpSpeed p1 = lit 0.08.

Variable containerRef : option (WaveBackground.DOMRect N).
Variable dimensions : WaveBackground.Dimensions N.

Lemma generateWavePath_sameRefs (r1 : WaveBackground.Refs N)
    (r2 : WaveBackground2.Refs N) (t w h : N) :
  sameRefs r1 r2 ->
  WaveBackground.generateWavePath p1 r1 t w h
  = WaveBackground2.generateWavePath p2 r2 t w h.
Proof.
  intros (_ & Hx & Hm).
  unfold WaveBackground.generateWavePath, WaveBackground2.generateWavePath.
  cbv zeta.
  now rewrite (wave_loop_same p1 p2 r1 r2 same_max same_base same_radius
                 Hx Hm same_speed same_frequency same_offset).
Qed.

Lemma animateRefs_sameRefs (r1 : WaveBackground.Refs N)
    (r2 : WaveBackground2.Refs N) :
  sameRefs r1 r2 ->
  sameRefs (WaveBackground.animateRefs p1 dimensions r1)
           (WaveBackground2.animateRefs r2).
Proof.
  intros (Ht & Hx & Hm).
  unfold WaveBackground.animateRefs, WaveBackground2.animateRefs,
    WaveBackground.influenceFadeSpeed.
  rewrite <- Ht, <- Hx, <- Hm, lerp_is_constant.
  destruct (WaveBackground.targetMouseX r1); now repeat split.
Qed.

Lemma dispatch_sameState (ev : WaveBackground.Event N)
    (s1 : WaveBackground.Refs N * WaveBackground.Dom)
    (s2 : WaveBackground2.Refs N * option WaveBackground.SVGPathElement) :
  sameState s1 s2 ->
  sameState (WaveBackground.dispatch p1 containerRef dimensions ev s1)
            (WaveBackground2.dispatch p2 containerRef dimensions ev s2).
Proof.
  intros [Hr Hp]. destruct ev as [e|time].
  - unfold WaveBackground.dispatch, WaveBackground2.dispatch.
    split; [|exact Hp]. cbn [fst].
    unfold WaveBackground.handleMouseMove, WaveBackground2.handleMouseMove.
    destruct containerRef as [rect|]; [|exact Hr].
    destruct Hr as (_ & Hx & Hm). now repeat split.
  - unfold WaveBackground.dispatch, WaveBackground2.dispatch,
      WaveBackground.animate, WaveBackground2.animate.
    pose proof (animateRefs_sameRefs (fst s1) (fst s2) Hr) as Hr'.
    split; [exact Hr'|]. cbn [fst snd]. unfold WaveBackground.animateDom.
    cbn [WaveBackground.pathRef]. rewrite Hp.
    destruct (snd s2) as [el|]; [|reflexivity].
    destruct (ngt (WaveBackground.width dimensions) (lit 0)); [|reflexivity].
    now rewrite (generateWavePath_sameRefs _ _ _ _ _ Hr').
Qed.

Lemma run_sameState (events : list (WaveBackground.Event N))
    (s1 : WaveBackground.Refs N * WaveBackground.Dom)
    (s2 : WaveBackground2.Refs N * option WaveBackground.SVGPathElement) :
  sameState s1 s2 ->
  sameState (WaveBackground.run p1 containerRef dimensions events s1)
            (WaveBackground2.run p2 containerRef dimensions events s2).
Proof.
  revert s1 s2. induction events as [|ev events IH]; intros s1 s2 Hs.
  - exact Hs.
  - unfold WaveBackground.run, WaveBackground2.run. simpl fold_left.
    apply IH. now apply dispatch_sameState.
Qed.

End SameRun.

(** X17.  In every arithmetic: when the first component is given
    [mouseLerpSpeed = 0.08] (the constant of the second) and the six shared
    props agree, the two components started from the same mouse refs and
    the same path element stay in step over any sequence of mousemove
    events and animation frames: same raw and smoothed mouse x, same
    influence, same path drawn. *)
Theorem components_in_step
    (N : Type) (H : Number N)
    (p1 : WaveBackground.Props N) (p2 : WaveBackground2.Props N)
    (containerRef : option (WaveBackground.DOMRect N))
    (dimensions : WaveBackground.Dimensions N)
    (events : list (WaveBackground.Event N))
    (s1 : WaveBackground.Refs N * WaveBackground.Dom)
    (s2 : WaveBackground2.Refs N * option WaveBackground.SVGPathElement) :
  WaveBackground.maxAmplitude p1 = WaveBackground2.maxAmplitude p2 ->
  WaveBackground.baseAmplitude p1 = WaveBackground2.baseAmplitude p2 ->
  WaveBackground.waveSpeed p1 = WaveBackground2.waveSpeed p2 ->
  WaveBackground.waveFrequency p1 = WaveBackground2.waveFrequency p2 ->
  WaveBackground.mouseInfluenceRadius p1 = WaveBackground2.mouseInfluenceRadius p2 ->
  WaveBackground.waveOffset p1 = WaveBackground2.waveOffset p2 ->
  WaveBackground.mouseLerpSpeed p1 = lit 0.08 ->
  sameState s1 s2 ->
  sameState (WaveBackground.run p1 containerRef dimensions events s1)
            (WaveBackground2.run p2 containerRef dimensions events s2).
Proof.
  intros Hmax Hbase Hspeed Hfreq Hrad Hoff Hlerp Hs.
  now apply run_sameState.
Qed.

Lemma components_in_step_witness :
  sameState
    (WaveBackground.run (H := binary64 Examples.sample_runtime)
       Examples.propsLerp008 None Examples.dimensions1366
       [WaveBackground.AnimationFrame 16%float]
       (Examples.refsHalf, Examples.domEmpty))
    (WaveBackground2.run (H := binary64 Examples.sample_runtime)
       Examples.defaultProps2 None Examples.dimensions1366
       [WaveBackground.AnimationFrame 16%float]
       (Examples.refsHalf2, None)).
Proof.
  apply (components_in_step float (binary64 Examples.sample_runtime)
           Examples.propsLerp008 Examples.defaultProps2 None
           Examples.dimensions1366 [WaveBackground.AnimationFrame 16%float]
           (Examples.refsHalf, Examples.domEmpty) (Examples.refsHalf2, None));
    try reflexivity.
  repeat split; reflexivity.
Defined.
